(** * washedmcp: token accounting and search orchestration

    A shallow embedding of [src/token_counter.py] and [src/searcher.py]
    together with the properties their specification states.

    Python [int] is [Z], Python [str] is [string] (a sequence of code
    points below 256), a [dict] with string keys is a [gmap string _], a
    [set] of strings is a [gset string], a Python [float] is an IEEE 754
    binary64 value ([spec_float] at precision 53). Every call that can
    raise has an [Outcome]: the value it returns or the exception it
    raises. *)

From Stdlib Require Import ZArith Lia String Ascii List Bool QArith Qpower.
From Stdlib Require Import Floats.SpecFloat.
From Stdlib Require Import DecimalString DecimalZ DecimalPos.
From stdpp Require Import base gmap strings list.

Local Open Scope string_scope.
Local Open Scope Z_scope.

(** ** Python run-time notions used by both modules *)

Module Py.

(** *** Exceptions

    The classes of the built-in hierarchy below [Exception] that the two
    modules can meet. [KeyboardInterrupt], [SystemExit] and [GeneratorExit]
    derive from [BaseException] only: they are control signals, not errors,
    and are not values of this type. *)
Inductive exn_class : Type :=
  | Exception
  | ArithmeticError | ZeroDivisionError | OverflowError
  | LookupError | KeyError
  | OSError | FileNotFoundError | PermissionError | IsADirectoryError
  | ConnectionError | TimeoutError
  | ValueError | UnicodeError | UnicodeDecodeError | UnicodeEncodeError
  | TypeError | RuntimeError | ImportError.

#[global] Instance exn_class_eq_dec : EqDecision exn_class.
Proof. solve_decision. Defined.

(** [IOError] is an alias of [OSError] since Python 3.3. *)
Definition IOError : exn_class := OSError.

(** The direct base class; [Exception] itself derives from
    [BaseException], which lies outside [exn_class]. *)
Definition base (c : exn_class) : option exn_class :=
  match c with
  | Exception => None
  | ZeroDivisionError | OverflowError => Some ArithmeticError
  | KeyError => Some LookupError
  | FileNotFoundError | PermissionError | IsADirectoryError
  | ConnectionError | TimeoutError => Some OSError
  | UnicodeError => Some ValueError
  | UnicodeDecodeError | UnicodeEncodeError => Some UnicodeError
  | ArithmeticError | LookupError | OSError | ValueError
  | TypeError | RuntimeError | ImportError => Some Exception
  end.

Fixpoint issubclass_upto (fuel : nat) (c d : exn_class) : bool :=
  if decide (c = d) then true
  else match fuel, base c with
       | S fuel', Some b => issubclass_upto fuel' b d
       | _, _ => false
       end.

(** The hierarchy has depth 4 ([UnicodeDecodeError] up to [Exception]). *)
Definition issubclass : exn_class -> exn_class -> bool := issubclass_upto 4.

(** A raised exception: its class and [str(e)]. *)
Record exn : Type := mk_exn { exn_cls : exn_class; exn_str : string }.

Definition isinstance (e : exn) (c : exn_class) : bool :=
  issubclass (exn_cls e) c.

(** [except (c1, c2, ...)]: the clause matches an instance of any listed class. *)
Definition matches (e : exn) (clause : list exn_class) : bool :=
  existsb (isinstance e) clause.

(** *** Outcomes of a computation that may raise *)
Inductive Outcome (A : Type) : Type :=
  | Return (a : A)
  | Raise (e : exn).
Arguments Return {A} a.
Arguments Raise {A} e.

Definition obind {A B} (o : Outcome A) (k : A -> Outcome B) : Outcome B :=
  match o with Return a => k a | Raise e => Raise e end.

(** [try: body except clause: handler]. *)
Definition try_except {A} (body : Outcome A) (clause : list exn_class)
    (handler : exn -> Outcome A) : Outcome A :=
  match body with
  | Return a => Return a
  | Raise e => if matches e clause then handler e else Raise e
  end.

(** Evaluate the outcomes left to right, stopping at the first raise. *)
Fixpoint map_outcome {A B} (f : A -> Outcome B) (l : list A) : Outcome (list B) :=
  match l with
  | [] => Return []
  | x :: l' => obind (f x) (fun y => obind (map_outcome f l') (fun ys => Return (y :: ys)))
  end.

(** [sum(iterable)] of ints: a left fold of [+] from [0]. *)
Definition sum (l : list Z) : Z := fold_left Z.add l 0.

(** [len(s)] and the truth value of a string ([not s] holds for the empty string only). *)
Definition len (s : string) : Z := Z.of_nat (String.length s).

Definition truthy (s : string) : bool :=
  match s with EmptyString => false | String _ _ => true end.

(** [sep.join(parts)]. *)
Definition join (sep : string) (parts : list string) : string :=
  String.concat sep parts.

Definition newline : string := String (ascii_of_nat 10) EmptyString.

(** [repr(s)] of a string that holds no quote, no backslash and no
    control character: the string between single quotes. It is what
    [str(KeyError(s))] gives. *)
Definition repr_str (s : string) : string := "'" ++ s ++ "'".

(** *** Opening a file

    [open(path, 'r', encoding='utf-8')] followed by [read()]. The
    interpreter rejects a path that holds a NUL character with a
    [ValueError] before the operating system is asked; otherwise the
    outcome is the operating system's, [os_read path]: the decoded
    contents, an [OSError] of [open], or the [UnicodeDecodeError] of the
    decoding. *)
Fixpoint has_nul (path : string) : bool :=
  match path with
  | EmptyString => false
  | String c rest => (Nat.eqb (nat_of_ascii c) 0) || has_nul rest
  end.

Definition open_and_read (os_read : string -> Outcome string) (path : string)
    : Outcome string :=
  if has_nul path then Raise (mk_exn ValueError "embedded null byte")
  else os_read path.

(** *** Floats: IEEE 754 binary64 *)
Definition prec : Z := 53.
Definition emax : Z := 1024.
Definition float : Type := spec_float.

(** An integer as an exact (not yet rounded) operand. *)
Definition exact_int (z : Z) : float :=
  match z with
  | Z0 => S754_zero false
  | Zpos p => S754_finite false p 0
  | Zneg p => S754_finite true p 0
  end.

(** A result outside the finite range is reported as [OverflowError]. *)
Definition check_overflow (msg : string) (x : float) : Outcome float :=
  match x with
  | S754_infinity _ => Raise (mk_exn OverflowError msg)
  | _ => Return x
  end.

(** [a / b] on ints: the correctly rounded quotient. *)
Definition int_true_divide (a b : Z) : Outcome float :=
  if b =? 0 then Raise (mk_exn ZeroDivisionError "division by zero")
  else check_overflow "integer division result too large for a float"
         (SFdiv prec emax (exact_int a) (exact_int b)).

(** [float(z)]: the int rounded to the nearest float. *)
Definition float_of_int (z : Z) : Outcome float :=
  check_overflow "int too large to convert to float"
    (binary_normalize prec emax z 0 false).

(** [x * z] for a float [x] and an int [z]: [z] is converted, then the
    product is rounded to nearest; float multiplication does not raise. *)
Definition float_mul_int (x : float) (z : Z) : Outcome float :=
  obind (float_of_int z) (fun y => Return (SFmul prec emax x y)).

(** The integer nearest to [num / den] for [den > 0], ties to even. *)
Definition div_half_even (num den : Z) : Z :=
  let q := num / den in
  match 2 * (num mod den) ?= den with
  | Lt => q
  | Gt => q + 1
  | Eq => if Z.even q then q else q + 1
  end.

(** [tenths x] is the integer nearest to [10 * |x|] for a finite nonzero
    [x = m * 2^e], ties to even, computed on the exact value. *)
Definition tenths (m : positive) (e : Z) : Z :=
  match e with
  | Zneg p => div_half_even (Zpos m * 10) (2 ^ Zpos p)
  | _ => Zpos m * 10 * 2 ^ e
  end.

(** [round(x, 1)]: the decimal with one fractional digit nearest to the
    exact value of [x] (ties to even), converted back to the nearest
    float; zeros, infinities and NaN round to themselves. *)
Definition round1 (x : float) : Outcome float :=
  match x with
  | S754_finite s m e =>
      let n := tenths m e in
      if n =? 0 then Return (S754_zero s)
      else check_overflow "rounded value too large to represent"
             (SFdiv prec emax (exact_int (cond_Zopp s n)) (exact_int 10))
  | _ => Return x
  end.

(** Comparison of floats as exact values. *)
Definition float_leb (x y : float) : bool := SFleb x y.

Declare Scope outcome_scope.
Delimit Scope outcome_scope with outcome.
Notation "'let!' x ':=' c 'in' k" := (obind c (fun x => k))
  (at level 10, x name, c at level 100, k at level 200) : outcome_scope.

End Py.

(** ** Token counter ([src/token_counter.py]) *)

Module TokenCounter.
Import Py.

(** The two module-level variables set by the guarded import (lines
    11-18): either the import failed and the character estimator is used
    ([HAS_TIKTOKEN = False], [_encoder = None]), or the third-party
    tokenizer is available ([HAS_TIKTOKEN = True] and [_encoder] is its
    encoder). The encoder is a parameter: [encode text] is the outcome of
    [_encoder.encode(text)], the list of token ids or the exception the
    tokenizer raises (it raises [ValueError] on a text that holds the
    spelling of one of its special tokens). *)
Inductive Backend : Type :=
  | CharEstimator
  | Tiktoken (encode : string -> Outcome (list Z)).

Definition HAS_TIKTOKEN (b : Backend) : bool :=
  match b with CharEstimator => false | Tiktoken _ => true end.

Definition encoder (b : Backend) : option (string -> Outcome (list Z)) :=
  match b with CharEstimator => None | Tiktoken encode => Some encode end.

(** [count_tokens]: lines 21-41. *)
Definition count_tokens (b : Backend) (text : string) : Outcome Z :=
  if negb (truthy text) then Return 0
  else match HAS_TIKTOKEN b, encoder b with
       | true, Some encode =>
           (let! tokens := encode text in
            Return (Z.of_nat (List.length tokens)))%outcome
       | _, _ => Return (len text / 4)
       end.

(** [count_tokens_batch]: lines 44-54. The generator is consumed from
    left to right; the first call that raises ends the sum. *)
Definition count_tokens_batch (b : Backend) (texts : list string) : Outcome Z :=
  (let! counts := map_outcome (count_tokens b) texts in
   Return (Py.sum counts))%outcome.

(** The dict built by [calculate_savings] and by the empty-result path of
    the searcher: four fixed keys. *)
Record TokenStats : Type := mk_stats {
  tokens_used : Z;
  tokens_without_search : Z;
  tokens_saved : Z;
  percent_saved : float
}.

(** [calculate_savings]: lines 57-83. *)
Definition calculate_savings (search_result_tokens full_file_tokens : Z)
    : Outcome TokenStats :=
  let saved := Z.max 0 (full_file_tokens - search_result_tokens) in
  (let! percent := (if 0 <? full_file_tokens
                    then (let! q := int_true_divide saved full_file_tokens in
                          let! p := float_mul_int q 100 in
                          round1 p)
                    else Return (S754_zero false)) in
   Return {| tokens_used := search_result_tokens;
             tokens_without_search := full_file_tokens;
             tokens_saved := saved;
             percent_saved := percent |})%outcome.

(** [estimate_file_tokens]: lines 86-101, over the file system
    [os_read]. Both the read and the call of [count_tokens] lie inside
    the [try]. *)
Definition estimate_file_tokens (b : Backend)
    (os_read : string -> Outcome string) (file_path : string) : Outcome Z :=
  try_except
    (let! content := open_and_read os_read file_path in
     count_tokens b content)%outcome
    [IOError; OSError; UnicodeDecodeError]
    (fun _ => Return 0).

End TokenCounter.

(** ** Searcher ([src/searcher.py]) *)

Module Searcher.
Import Py TokenCounter.

(** One result dict of the index. A key may be absent ([None]); the values
    have the types of the data model. *)
Record SearchResult : Type := mk_result {
  function_name : option string;
  file_path : option string;
  line_start : option Z;
  line_end : option Z;
  summary : option string;
  code : option string;
  similarity : option float
}.

(** The imported collaborators ([src.embedder], [src.database]) and the
    operating system, over a state [S] of the outside world and a type [V]
    of embedding vectors. Each call may change the state and may raise.
    [open_read s path] is what the file system of [s] gives for [path];
    [stdout_write s text] tells whether writing [text] to the standard
    output succeeds in [s] (it raises when the stream is closed or cannot
    encode [text]). *)
Class Collaborators (S V : Type) : Type := {
  init_db : string -> S -> Outcome unit * S;
  embed_query : string -> S -> Outcome V * S;
  db_search : V -> Z -> S -> Outcome (list SearchResult) * S;
  get_stats : S -> Outcome (gmap string Z) * S;
  os_path_exists : string -> S -> bool;
  open_read : S -> string -> Outcome string;
  stdout_write : S -> string -> Outcome unit
}.

(** The state a call runs in: the outside world and what was printed. *)
Record World (S : Type) : Type := mk_world {
  ext : S;
  stdout : list string
}.
Arguments mk_world {S} ext stdout.
Arguments ext {S} w.
Arguments stdout {S} w.

(** Computations: state passing with exceptions. *)
Definition M (S A : Type) : Type := World S -> Outcome A * World S.

Definition ret {S A} (a : A) : M S A := fun w => (Return a, w).

Definition bind {S A B} (c : M S A) (k : A -> M S B) : M S B :=
  fun w => match c w with
           | (Return a, w') => k a w'
           | (Raise e, w') => (Raise e, w')
           end.

Definition lift {S A} (o : Outcome A) : M S A := fun w => (o, w).

(** A call of a collaborator acts on the outside world only. *)
Definition call {S A} (f : S -> Outcome A * S) : M S A :=
  fun w => let '(o, s') := f (ext w) in (o, mk_world s' (stdout w)).

(** An observation of the outside world. *)
Definition observe {S A} (f : S -> A) : M S A :=
  fun w => (Return (f (ext w)), w).

(** [print(line)]: the line is written to the standard output, or the
    exception of the write is raised and nothing is recorded. *)
Definition print {S V : Type} `{Collaborators S V} (line : string) : M S unit :=
  fun w => match stdout_write (ext w) line with
           | Return _ => (Return tt, mk_world (ext w) (stdout w ++ [line]))
           | Raise e => (Raise e, w)
           end.

(** [try: body except clause as e: handler e]; the handler starts from
    the state the body left. *)
Definition try_catch {S A} (body : M S A) (clause : list exn_class)
    (handler : exn -> M S A) : M S A :=
  fun w => match body w with
           | (Return a, w') => (Return a, w')
           | (Raise e, w') =>
               if matches e clause then handler e w' else (Raise e, w')
           end.

Declare Scope prog_scope.
Delimit Scope prog_scope with prog.
Notation "'let!' x ':=' c 'in' k" := (bind c (fun x => k))
  (at level 10, x name, c at level 100, k at level 200) : prog_scope.
Notation "'do!' c 'in' k" := (bind c (fun _ => k))
  (at level 10, c at level 100, k at level 200) : prog_scope.

Section Orchestrator.
Context {S V : Type} `{Collaborators S V}.
Variable backend : Backend.

(** The diagnostic line for a caught exception [e]. *)
Definition diagnostic (e : exn) : string := "Search error: " +:+ exn_str e.

(** The state [search_code] leaves after catching [e] in outside state
    [s], once the diagnostic line has been printed. *)
Definition after_error (w : World S) (s : S) (e : exn) : World S :=
  mk_world s (stdout w ++ [diagnostic e]).

(** What the except handler of [search_code] does with a caught [e] in
    outside state [s]: it prints the diagnostic and returns the empty
    list, unless the print itself raises. *)
Definition handled (w : World S) (s : S) (e : exn)
    : Outcome (list SearchResult) * World S :=
  match stdout_write s (diagnostic e) with
  | Return _ => (Return [], after_error w s e)
  | Raise e' => (Raise e', mk_world s (stdout w))
  end.

(** [search_code]: lines 9-39. *)
Definition search_code (query persist_path : string) (top_k : Z)
    : M S (list SearchResult) :=
  try_catch
    (do! call (init_db persist_path) in
     let! query_embedding := call (embed_query query) in
     let! results := call (db_search query_embedding top_k) in
     ret results)%prog
    [Exception]
    (fun e => do! print ("Search error: " ++ exn_str e)%string in ret [])%prog.

(** The statistics returned with an empty result list (lines 62-67). *)
Definition zero_stats : TokenStats :=
  {| tokens_used := 0; tokens_without_search := 0;
     tokens_saved := 0; percent_saved := S754_zero false |}.

(** [r.get("code", default)] with the empty string as default. *)
Definition get_code (r : SearchResult) : string := default EmptyString (code r).

(** The generator of line 75: [r.get("file_path", default)] for the results
    whose [r.get("file_path")] is truthy. *)
Definition truthy_paths (results : list SearchResult) : list string :=
  omap (fun r => match file_path r with
                 | Some fp => if truthy fp then Some fp else None
                 | None => None
                 end) results.

(** [list(set(...))]: the distinct paths, in the iteration order of the set. *)
Definition file_paths_of (results : list SearchResult) : list string :=
  elements (list_to_set (C := gset string) (truthy_paths results)).

(** [search_code_with_stats]: lines 42-86. *)
Definition search_code_with_stats (query persist_path : string) (top_k : Z)
    : M S (list SearchResult * TokenStats) :=
  (let! results := search_code query persist_path top_k in
   match results with
   | [] => ret (results, zero_stats)
   | _ :: _ =>
       let result_code := join newline (map get_code results) in
       let! tokens_used := lift (count_tokens backend result_code) in
       let file_paths := file_paths_of results in
       let! fs := observe open_read in
       let! counts := lift (map_outcome (estimate_file_tokens backend fs) file_paths) in
       let tokens_without_search := Py.sum counts in
       let tokens_without_search :=
         if tokens_without_search =? 0
         then 500 * Z.max 3 (Z.of_nat (length file_paths))
         else tokens_without_search in
       let! token_stats :=
         lift (calculate_savings tokens_used tokens_without_search) in
       ret (results, token_stats)
   end)%prog.

(** [stats["total_functions"]]: a missing key raises [KeyError]. *)
Definition getitem (d : gmap string Z) (key : string) : Outcome Z :=
  match d !! key with
  | Some v => Return v
  | None => Raise (mk_exn KeyError (repr_str key))
  end.

(** [is_indexed]: lines 89-108. *)
Definition is_indexed (persist_path : string) : M S bool :=
  try_catch
    (let! found := observe (os_path_exists persist_path) in
     if negb found then ret false
     else
       do! call (init_db persist_path) in
       let! stats := call get_stats in
       let! total := lift (getitem stats "total_functions") in
       ret (0 <? total))%prog
    [Exception]
    (fun _ => ret false).

End Orchestrator.

End Searcher.

(** ** A simulated outside world

    A concrete [Collaborators] instance, used to run the searcher on
    explicit inputs: an index per persist path, a file system, an embedder
    that can be switched off, a counter of [init_db] calls, and a standard
    output that accepts every line. *)

Module Sim.
Import Py TokenCounter Searcher.

Record State : Type := mk_state {
  indexes : gmap string (list SearchResult);
  files : gmap string string;
  embedder_up : bool;
  opened : option string;
  init_calls : nat
}.

Definition sim_init_db (path : string) (s : State) : Outcome unit * State :=
  let s' := mk_state (indexes s) (files s) (embedder_up s)
                     (match indexes s !! path with
                      | Some _ => Some path
                      | None => opened s
                      end)
                     (Datatypes.S (init_calls s)) in
  match indexes s !! path with
  | Some _ => (Return tt, s')
  | None => (Raise (mk_exn RuntimeError "no index at this path"), s')
  end.

Definition sim_embed_query (query : string) (s : State) : Outcome Z * State :=
  if embedder_up s then (Return (len query), s)
  else (Raise (mk_exn ConnectionError "embedder unreachable"), s).

Definition opened_index (s : State) : option (list SearchResult) :=
  p ← opened s; indexes s !! p.

Definition sim_db_search (v top_k : Z) (s : State)
    : Outcome (list SearchResult) * State :=
  match opened_index s with
  | Some rs => (Return (take (Z.to_nat top_k) rs), s)
  | None => (Raise (mk_exn ValueError "collection not initialised"), s)
  end.

Definition sim_get_stats (s : State) : Outcome (gmap string Z) * State :=
  match opened_index s with
  | Some rs => (Return {[ "total_functions" := Z.of_nat (length rs) ]}, s)
  | None => (Raise (mk_exn ValueError "collection not initialised"), s)
  end.

Definition sim_open_read (s : State) (path : string) : Outcome string :=
  match files s !! path with
  | Some content => Return content
  | None => Raise (mk_exn FileNotFoundError path)
  end.

#[global] Instance sim_collaborators : Collaborators State Z := {|
  init_db := sim_init_db;
  embed_query := sim_embed_query;
  db_search := sim_db_search;
  get_stats := sim_get_stats;
  os_path_exists := fun path s => bool_decide (is_Some (indexes s !! path));
  open_read := sim_open_read;
  stdout_write := fun _ _ => Return tt
|}.

Definition snippet (name path body : string) : SearchResult :=
  {| function_name := Some name; file_path := Some path;
     line_start := Some 1; line_end := Some 3;
     summary := Some name; code := Some body; similarity := None |}.

Definition chroma : string := "./.washedmcp/chroma".

(** Two results from the same file, one from a second file that cannot be
    read, and one without a path. *)
Definition sample_results : list SearchResult :=
  [ snippet "check_reverse" "a.py" "def check_reverse(s): return s == s[::-1]";
    snippet "helper" "a.py" "def helper(): pass";
    snippet "gone" "b.py" "x = 1";
    snippet "anon" EmptyString "y" ].

Definition a_py : string :=
  "def check_reverse(s): return s == s[::-1]  # palindrome test, used by the demo and by the command line".

Definition start (up : bool) (fs : gmap string string) (rs : list SearchResult)
    : World State :=
  mk_world (mk_state {[ chroma := rs ]} fs up None 0) [].

Definition world_ok : World State := start true {[ "a.py" := a_py ]} sample_results.
Definition world_no_files : World State := start true ∅ sample_results.
Definition world_embedder_down : World State := start false ∅ sample_results.
Definition world_empty_index : World State := start true ∅ [].
Definition world_tiny : World State := start true ∅ [snippet "t" "t.py" "x=1"].

End Sim.

(** ** Exact values of floats

    Notions used to state and prove bounds on the float operations. *)

Module Dyadic.
Import Py.

(** The rational [m * 2^e]. *)
Definition dyadic (m e : Z) : Q := (inject_Z m * 2 ^ e)%Q.

(** Some bit was lost in the shifts recorded by [y]. *)
Definition inexact (y : shr_record) : bool := shr_r y || shr_s y.

(** [y] is [x] shifted right by [n] bits. *)
Definition shifted (n : Z) (x y : shr_record) : Prop :=
  0 <= shr_m x ->
  shr_m y = shr_m x / 2 ^ n
  /\ (inexact y = false <-> inexact x = false /\ shr_m x mod 2 ^ n = 0).

(** The next mantissa above a truncated value, or the mantissa itself
    when the value is exact. *)
Definition upper_of (mx : Z) (lx : location) : Z :=
  match lx with loc_Exact => mx | loc_Inexact _ => mx + 1 end.

(** A float in [[0, M * 2^E]]. *)
Definition below (M E : Z) (x : float) : Prop :=
  match x with
  | S754_zero s => s = false
  | S754_finite s m e => s = false /\ (dyadic (Zpos m) e <= dyadic M E)%Q
  | _ => False
  end.

(** The float [100.0]. *)
Definition hundred : float := S754_finite false 7036874417766400 (-46).

(** The float nearest to [n / 10]. *)
Definition tenth (n : Z) : float :=
  if n =? 0 then S754_zero false
  else SFdiv prec emax (exact_int n) (exact_int 10).

(** [0.0 <= x <= 100.0]. *)
Definition in_percent_range (x : float) : Prop :=
  float_leb (S754_zero false) x = true /\ float_leb x hundred = true.

Definition tenth_in_range (k : nat) : bool :=
  match tenth (Z.of_nat k) with
  | S754_zero false => true
  | S754_finite false m e =>
      float_leb (S754_zero false) (S754_finite false m e)
      && float_leb (S754_finite false m e) hundred
  | _ => false
  end.

End Dyadic.

(** ** Notions of the specification *)

Module Spec.
Import Py TokenCounter Searcher.

(** "The sum of [f] over the elements" of a sequence. *)
Fixpoint sum_over {A : Type} (f : A -> Z) (l : list A) : Z :=
  match l with
  | [] => 0
  | x :: l' => f x + sum_over f l'
  end.

(** "The concatenation of the strings". *)
Definition concatenation (texts : list string) : string := join EmptyString texts.

(** "The sum of [f] over the elements" when computing [f] may raise: the
    values are added from left to right and the first exception ends
    the sum. *)
Fixpoint sum_of_outcomes {A : Type} (f : A -> Outcome Z) (l : list A)
    : Outcome Z :=
  match l with
  | [] => Return 0
  | x :: l' => (let! n := f x in
                let! m := sum_of_outcomes f l' in
                Return (n + m))%outcome
  end.

(** "[(tokens_saved / without) * 100] rounded to one decimal", with
    Python's operations. *)
Definition percent_of (saved without : Z) : Outcome float :=
  (let! q := int_true_divide saved without in
   let! p := float_mul_int q 100 in
   round1 p)%outcome.

(** "The set of distinct file paths present in the results (duplicates
    counted once)": the values of the [file_path] attribute of the
    results, without the empty string (which names no file), each kept
    once. *)
Definition distinct_paths (results : list SearchResult) : list string :=
  remove_dups
    (filter (fun fp : string => fp <> EmptyString) (omap file_path results)).

(** The heuristic "[500 * max(3, distinct_file_count)]". *)
Definition heuristic (distinct_file_count : Z) : Z :=
  500 * Z.max 3 distinct_file_count.

End Spec.

(** ** Variants of the simulated world

    Two further collaborator sets over the same state: an index whose
    statistics lack the [total_functions] key, and a process whose
    standard output has been closed, so that every [print] raises
    [ValueError]. Then a stand-in for the third-party tokenizer, and
    further inputs. *)

Module SimVariants.
Import Py TokenCounter Searcher Sim.

Definition bare_stats : Collaborators State Z := {|
  init_db := sim_init_db;
  embed_query := sim_embed_query;
  db_search := sim_db_search;
  get_stats := fun s => (Return (∅ : gmap string Z), s);
  os_path_exists := fun path s => bool_decide (is_Some (indexes s !! path));
  open_read := sim_open_read;
  stdout_write := fun _ _ => Return tt
|}.

Definition closed_file : exn := mk_exn ValueError "I/O operation on closed file.".

Definition closed_stdout : Collaborators State Z := {|
  init_db := sim_init_db;
  embed_query := sim_embed_query;
  db_search := sim_db_search;
  get_stats := sim_get_stats;
  os_path_exists := fun path s => bool_decide (is_Some (indexes s !! path));
  open_read := sim_open_read;
  stdout_write := fun _ _ => Raise closed_file
|}.

(** The spelling of a special token of the tokenizer. *)
Definition special_token : string := "<|endoftext|>".

Fixpoint is_prefix (p s : string) : bool :=
  match p, s with
  | EmptyString, _ => true
  | String a p', String b s' => Ascii.eqb a b && is_prefix p' s'
  | String _ _, EmptyString => false
  end.

Fixpoint contains (p s : string) : bool :=
  is_prefix p s
  || match s with
     | EmptyString => false
     | String _ s' => contains p s'
     end.

Definition disallowed : exn :=
  mk_exn ValueError "Encountered text corresponding to disallowed special token '<|endoftext|>'.".

(** A tokenizer that behaves as [_encoder.encode] does on special
    tokens: a text that holds the spelling of one is refused with
    [ValueError]. Any other text is cut into one token per character,
    which stands for the real, coarser, cut. *)
Definition refusing_encode (text : string) : Outcome (list Z) :=
  if contains special_token text then Raise disallowed
  else Return (map (fun c => Z.of_nat (nat_of_ascii c)) (list_ascii_of_string text)).

Definition tiktoken : Backend := Tiktoken refusing_encode.

Definition nul_path : string := String "a" (String (ascii_of_nat 0) "b").

Definition null_byte : exn := mk_exn ValueError "embedded null byte".

Definition world_nul : World State :=
  start true ∅ [snippet "n" nul_path "pass"].

(** A text that quotes the special token. *)
Definition tok_py : string := "EOT = '<|endoftext|>'".

(** A result whose code quotes the special token. *)
Definition world_special : World State :=
  start true ∅ [snippet "eot" "tok.py" tok_py].

(** A result whose file quotes the special token. *)
Definition world_special_file : World State :=
  start true {[ "tok.py" := tok_py ]} [snippet "use" "tok.py" "import tok"].

(** Results from four files, none of which can be read, one of them
    named twice, and one result without a path. *)
Definition scattered_results : list SearchResult :=
  [ snippet "f" "a.py" "def f(): pass";
    snippet "g" "b.py" "def g(): pass";
    snippet "f2" "a.py" "def f2(): pass";
    snippet "anon" EmptyString "y";
    snippet "h" "c.py" "def h(): pass";
    snippet "k" "d.py" "def k(): pass" ].

Definition world_scattered : World State := start true ∅ scattered_results.

(** The same three files twice, in another order and with repeats. *)
Definition shuffled_results : list SearchResult :=
  [ snippet "gone" "b.py" "x = 1";
    snippet "helper" "a.py" "def helper(): pass";
    snippet "gone2" "b.py" "z = 3" ].

Definition world_shuffled : World State :=
  start true {[ "a.py" := a_py ]} shuffled_results.

End SimVariants.

(** ** Display ([format_token_stats], lines 104-119) *)

Module Display.
Import Py TokenCounter.

(** [str(n)] for an int: its decimal digits, with a minus sign when negative. *)
Definition str_int (n : Z) : string := NilZero.string_of_int (Z.to_int n).

(** *** The format specification [','] on an int *)

Definition comma : ascii := ","%char.

(** Digits given from the least significant one: a comma after every
    third digit that has a digit after it. *)
Fixpoint group3 (rev_digits : list ascii) : list ascii :=
  match rev_digits with
  | d1 :: d2 :: d3 :: ((_ :: _) as rest) =>
      d1 :: d2 :: d3 :: comma :: group3 rest
  | _ => rev_digits
  end.

Definition with_commas (digits : string) : string :=
  string_of_list_ascii (rev (group3 (rev (list_ascii_of_string digits)))).

(** [format(n, ',')]. *)
Definition format_commas (n : Z) : string :=
  match Z.to_int n with
  | Decimal.Pos d => with_commas (NilZero.string_of_uint d)
  | Decimal.Neg d => String "-" (with_commas (NilZero.string_of_uint d))
  end.

Definition not_comma (c : ascii) : bool := negb (Ascii.eqb c comma).

(** [s.replace(",", empty)]: the text without its commas. *)
Fixpoint remove_commas (s : string) : string :=
  match s with
  | EmptyString => EmptyString
  | String c rest =>
      if Ascii.eqb c comma then remove_commas rest
      else String c (remove_commas rest)
  end.

(** *** [repr] of a float

    The interpreter prints a finite float [x = m * 2^e] with the fewest
    significant digits that read back as [x], taking the decimal nearest
    to [x] when two of that length do, in positional notation when the
    decimal point falls within [-4 < point <= 16] and in exponent
    notation otherwise. All comparisons below are on exact integers. *)

(** [10^t] as a fraction [a / b]. *)
Definition pow10 (t : Z) : Z * Z :=
  match t with
  | Zneg p => (1, 10 ^ Zpos p)
  | _ => (10 ^ t, 1)
  end.

(** The exact value of [m * 2^e] as the fraction [num_of m e / den_of e]. *)
Definition num_of (m : positive) (e : Z) : Z :=
  match e with Zneg _ => Zpos m | _ => Zpos m * 2 ^ e end.

Definition den_of (e : Z) : Z :=
  match e with Zneg p => 2 ^ Zpos p | _ => 1 end.

(** The least [p], searched upward from a start below it, with
    [num / den < 10^p]. *)
Fixpoint decimal_point (fuel : nat) (num den p : Z) : Z :=
  match fuel with
  | O => p
  | S fuel' =>
      let '(a, b) := pow10 p in
      if num * b <? a * den then p
      else decimal_point fuel' num den (p + 1)
  end.

(** The decimal with [k] significant digits to print for [x], if one
    reads back as [x]. With [t = k - p] and [10^t = a / b], the candidates
    are [c / 10^t] for [c] the floor of [x * 10^t] and for [c + 1]. A
    candidate reads back as [x] when it lies between the midpoints to the
    neighbouring floats: [hi] above [x] and [lo] below it, in units of
    [1 / (4 * den_of e)], the lower gap being half as wide just above a
    power of two; the midpoints themselves count when [m] is even. Of two
    candidates that read back the nearer one is taken, the even one on a
    tie. *)
Definition shortest_at (m : positive) (e : Z) (p k : Z) : option Z :=
  let num := 4 * num_of m e in
  let den := 4 * den_of e in
  let hi := 2 * num_of 1 e in
  let lo := if (Pos.eqb m (2 ^ 52)) && (-1074 <? e) then num_of 1 e else hi in
  let '(a, b) := pow10 (k - p) in
  let c := (num * a) / (den * b) in
  let dist c := c * b * den - num * a in
  let inside c :=
    if Z.even (Zpos m)
    then (- lo * a <=? dist c) && (dist c <=? hi * a)
    else (- lo * a <? dist c) && (dist c <? hi * a) in
  match inside c, inside (c + 1) with
  | true, true =>
      match Z.abs (dist c) ?= Z.abs (dist (c + 1)) with
      | Lt => Some c
      | Gt => Some (c + 1)
      | Eq => Some (if Z.even c then c else c + 1)
      end
  | true, false => Some c
  | false, true => Some (c + 1)
  | false, false => None
  end.

(** The digits and the decimal point for the first length [k] that has
    a decimal reading back; a candidate [10^k] is the digit [1] one place
    higher. Seventeen digits always suffice. *)
Fixpoint shortest_from (fuel : nat) (m : positive) (e : Z) (p k : Z) : Z * Z :=
  match fuel with
  | O => (0, p)
  | S fuel' =>
      match shortest_at m e p k with
      | Some c => if c =? 10 ^ k then (1, p + 1) else (c, p)
      | None => shortest_from fuel' m e p (k + 1)
      end
  end.

(** With [L] the binary logarithm of [x] rounded down, [L * 0.30102 - 1]
    lies below the decimal logarithm of [x] and within a few units of it. *)
Definition shortest_digits (m : positive) (e : Z) : Z * Z :=
  let L := Z.log2 (Zpos m) + e in
  let p := decimal_point 8 (num_of m e) (den_of e) (L * 30102 / 100000 - 1) in
  shortest_from 17 m e p 1.

(** Trailing zeros are not digits of the shortest form. *)
Fixpoint strip_zeros (fuel : nat) (c : Z) : Z :=
  match fuel with
  | O => c
  | S fuel' =>
      if (c mod 10 =? 0) && negb (c =? 0) then strip_zeros fuel' (c / 10) else c
  end.

Fixpoint zeros (n : nat) : string :=
  match n with O => EmptyString | S n' => String "0" (zeros n') end.

(** The exponent is printed with two digits at least. *)
Definition two_digits (n : Z) : string :=
  if n <? 10 then String "0" (str_int n) else str_int n.

(** [repr(x)], which is also [str(x)] and what an f-string without a
    format specification inserts. The value is [0.d1 d2 ... * 10^point]. *)
Definition float_repr (x : float) : string :=
  match x with
  | S754_nan => "nan"
  | S754_infinity s => if s then "-inf" else "inf"
  | S754_zero s => if s then "-0.0" else "0.0"
  | S754_finite s m e =>
      let '(c, point) := shortest_digits m e in
      let ds := str_int (strip_zeros 17 c) in
      let n := Z.of_nat (String.length ds) in
      let body :=
        if (point <=? -4) || (16 <? point) then
          let mant := match ds with
                      | String d EmptyString => String d EmptyString
                      | String d rest => String d (String "." rest)
                      | EmptyString => EmptyString
                      end in
          let ex := point - 1 in
          mant ++ "e" ++ (if ex <? 0 then "-" else "+") ++ two_digits (Z.abs ex)
        else if point <=? 0 then
          "0." ++ zeros (Z.to_nat (- point)) ++ ds
        else if point <? n then
          substring 0 (Z.to_nat point) ds ++ "."
            ++ substring (Z.to_nat point) (Z.to_nat (n - point)) ds
        else ds ++ zeros (Z.to_nat (point - n)) ++ ".0" in
      if s then String "-" body else body
  end.

(** The chart emoji U+1F4CA. It is the one character of the two modules
    above code point 255; it is held as its four UTF-8 bytes, and no
    length is taken of a text that holds it. *)
Definition chart : string :=
  String (ascii_of_nat 240) (String (ascii_of_nat 159)
    (String (ascii_of_nat 147) (String (ascii_of_nat 138) EmptyString))).

(** [format_token_stats]: lines 104-119. *)
Definition format_token_stats (stats : TokenStats) : string :=
  chart ++ " Token Stats:" ++ newline
  ++ "   Used: " ++ format_commas (tokens_used stats) ++ " tokens" ++ newline
  ++ "   Without search: " ++ format_commas (tokens_without_search stats)
  ++ " tokens" ++ newline
  ++ "   Saved: " ++ format_commas (tokens_saved stats) ++ " tokens ("
  ++ float_repr (percent_saved stats) ++ "%)".

(** A number of tenths written with one fractional digit. *)
Definition one_decimal (n : Z) : string :=
  str_int (n / 10) ++ "." ++ str_int (n mod 10).

Definition repr_one_decimal (k : nat) : bool :=
  String.eqb (float_repr (Dyadic.tenth (Z.of_nat k))) (one_decimal (Z.of_nat k)).

End Display.

(** ** The demo of the searcher (lines 111-130) *)

Module Demo.
Import Py TokenCounter Searcher Display.

(** [d[key]] on a result dict: a missing key raises [KeyError], whose
    message is [repr(key)]. *)
Definition subscript {A} (field : option A) (key : string) : Outcome A :=
  match field with
  | Some v => Return v
  | None => Raise (mk_exn KeyError (repr_str key))
  end.

(** A result that has all seven keys. *)
Definition complete (r : SearchResult) : bool :=
  bool_decide (is_Some (function_name r)) && bool_decide (is_Some (file_path r))
  && bool_decide (is_Some (line_start r)) && bool_decide (is_Some (line_end r))
  && bool_decide (is_Some (summary r)) && bool_decide (is_Some (similarity r))
  && bool_decide (is_Some (code r)).

Section Main.
Context {S V : Type} `{Collaborators S V}.

(** What [print] calls add to a world. *)
Definition printed (w : World S) (lines : list string) : World S :=
  mk_world (ext w) (stdout w ++ lines).

(** The default of [persist_path]. *)
Definition default_path : string := "./.washedmcp/chroma".

(** The body of the loop, for the result [r] numbered [i] (lines 118-126). *)
Definition show_result (i : Z) (r : SearchResult) : M S unit :=
  (do! print ("--- Result " ++ str_int i ++ " ---") in
   let! name := lift (subscript (function_name r) "function_name") in
   do! print ("Function: " ++ name) in
   let! path := lift (subscript (file_path r) "file_path") in
   do! print ("File: " ++ path) in
   let! first := lift (subscript (line_start r) "line_start") in
   let! last := lift (subscript (line_end r) "line_end") in
   do! print ("Lines: " ++ str_int first ++ "-" ++ str_int last) in
   let! text := lift (subscript (summary r) "summary") in
   do! print ("Summary: " ++ text) in
   let! score := lift (subscript (similarity r) "similarity") in
   do! print ("Similarity: " ++ float_repr score) in
   let! body := lift (subscript (code r) "code") in
   do! print ("Code:" ++ newline ++ body) in
   print EmptyString)%prog.

(** [for i, result in enumerate(results, 1)]. *)
Fixpoint show_results (i : Z) (results : list SearchResult) : M S unit :=
  match results with
  | [] => ret tt
  | r :: rest => (do! show_result i r in show_results (i + 1) rest)%prog
  end.

(** The block under [if __name__ == "__main__"]: lines 111-130. *)
Definition main : M S unit :=
  (let! indexed := is_indexed default_path in
   if indexed then
     do! print ("Database is indexed. Searching for 'palindrome'..." ++ newline) in
     let! results := search_code "palindrome" default_path 5 in
     match results with
     | [] => print "No results found."
     | _ :: _ =>
         do! print ("Found " ++ str_int (Z.of_nat (length results))
                    ++ " results:" ++ newline) in
         show_results 1 results
     end
   else print "Not indexed yet")%prog.

End Main.

(** A state with one result that has all its keys. *)
Definition full_result : SearchResult :=
  {| function_name := Some "check_reverse"; file_path := Some "a.py";
     line_start := Some 10; line_end := Some 12;
     summary := Some "palindrome test";
     code := Some "return s == s[::-1]";
     similarity := Some (Dyadic.tenth 9) |}.

Definition world_full : World Sim.State :=
  Sim.start true ∅ [full_result].

End Demo.

(** * Properties *)

(** ** Outcomes *)

Section OutcomeFacts.
Import Py.

Lemma map_outcome_returns {A B} (f : A -> Outcome B) (g : A -> B) l :
  (forall x, x ∈ l -> f x = Return (g x)) -> map_outcome f l = Return (map g l).
Proof.
  induction l as [|x l IH]; intros Hf; [reflexivity|].
  cbn [map_outcome map]. rewrite (Hf x) by left. cbn [obind].
  rewrite IH by (intros y Hy; apply Hf; right; exact Hy). reflexivity.
Qed.

Lemma map_outcome_spec {A B} (f : A -> Outcome B) l :
  match map_outcome f l with
  | Return ys => Forall2 (fun x y => f x = Return y) l ys
  | Raise e => exists x, x ∈ l /\ f x = Raise e
  end.
Proof.
  induction l as [|x l IH]; cbn [map_outcome]; [constructor|].
  destruct (f x) as [y|e] eqn:Hx; cbn [obind].
  - destruct (map_outcome f l) as [ys|e]; cbn [obind].
    + constructor; assumption.
    + destruct IH as (x' & Hin & Hx'). exists x'. split; [right|]; assumption.
  - exists x. split; [left | exact Hx].
Qed.

Lemma Forall2_elem_l {A B} (P : A -> B -> Prop) l k x :
  Forall2 P l k -> x ∈ l -> exists y, P x y.
Proof.
  induction 1 as [|a b l k Hab _ IH]; intros Hin.
  - apply elem_of_nil in Hin. contradiction.
  - apply elem_of_cons in Hin as [-> | Hin]; eauto.
Qed.

Lemma map_outcome_ext {A B} (f g : A -> Outcome B) l :
  (forall x, x ∈ l -> f x = g x) -> map_outcome f l = map_outcome g l.
Proof.
  induction l as [|x l IH]; intros Hfg; [reflexivity|].
  cbn [map_outcome]. rewrite (Hfg x) by left.
  rewrite IH by (intros y Hy; apply Hfg; right; exact Hy). reflexivity.
Qed.

(** A traversal returns on a list exactly when it returns on every
    rearrangement of the list, with the values rearranged alike. *)
Lemma map_outcome_permutation {A B} (f : A -> Outcome B) l k ys :
  l ≡ₚ k -> map_outcome f l = Return ys ->
  exists zs, map_outcome f k = Return zs /\ ys ≡ₚ zs.
Proof.
  intros Hperm. revert ys.
  induction Hperm as [|x l k _ IH|x y l|l k m _ IH1 _ IH2]; intros ys.
  - intros [= <-]. exists []. split; reflexivity.
  - cbn [map_outcome]. destruct (f x) as [v|e]; cbn [obind]; [|discriminate].
    destruct (map_outcome f l) as [vs|e]; cbn [obind]; [|discriminate].
    intros [= <-]. destruct (IH vs eq_refl) as (zs & -> & Hzs).
    exists (v :: zs). split; [reflexivity|]. constructor. exact Hzs.
  - cbn [map_outcome].
    destruct (f y) as [v|e]; cbn [obind]; [|discriminate].
    destruct (f x) as [u|e]; cbn [obind]; [|discriminate].
    destruct (map_outcome f l) as [vs|e]; cbn [obind]; [|discriminate].
    intros [= <-]. exists (u :: v :: vs). split; [reflexivity|]. constructor.
  - intros Hl. destruct (IH1 ys Hl) as (zs & Hk & Hzs).
    destruct (IH2 zs Hk) as (us & Hm & Hus).
    exists us. split; [exact Hm|]. etransitivity; eassumption.
Qed.

End OutcomeFacts.

(** ** Token counter *)

Section TokenCounterFacts.
Import Py TokenCounter.

Lemma len_nonneg text : 0 <= len text.
Proof. unfold len. lia. Qed.

Lemma len_empty_iff text : len text = 0 <-> text = EmptyString.
Proof.
  unfold len. destruct text as [|c text]; cbn [String.length]; split;
    intros Heq; try reflexivity; try discriminate; lia.
Qed.

Lemma len_append s t : len (s ++ t)%string = len s + len t.
Proof.
  unfold len. induction s as [|c s IH].
  - change (EmptyString +:+ t) with t. cbn [String.length]. lia.
  - change (String c s +:+ t) with (String c (s +:+ t)).
    cbn [String.length]. rewrite !Nat2Z.inj_succ. lia.
Qed.

(** The estimator needs no case on emptiness: the length of the empty text divided by four is [0]. *)
Lemma count_tokens_estimator text :
  count_tokens CharEstimator text = Return (len text / 4).
Proof. destruct text; reflexivity. Qed.

Lemma count_tokens_empty b : count_tokens b EmptyString = Return 0.
Proof. reflexivity. Qed.

(** With a tokenizer, the count of a non-empty text is the number of
    tokens when [encode] returns, and the exception of [encode] otherwise. *)
Lemma count_tokens_tiktoken encode text :
  text <> EmptyString ->
  count_tokens (Tiktoken encode) text
  = obind (encode text) (fun tokens => Return (Z.of_nat (List.length tokens))).
Proof. destruct text; [congruence | reflexivity]. Qed.

Lemma count_tokens_nonneg b text n : count_tokens b text = Return n -> 0 <= n.
Proof.
  unfold count_tokens. destruct (negb (truthy text)); [intros [= <-]; lia|].
  destruct b as [|encode]; cbn [HAS_TIKTOKEN encoder].
  - intros [= <-]. apply Z.div_pos; [apply len_nonneg | lia].
  - destruct (encode text); cbn [obind]; [intros [= <-]; lia | discriminate].
Qed.

(** Only the tokenizer can make [count_tokens] raise. *)
Lemma count_tokens_raises b text e :
  count_tokens b text = Raise e ->
  exists encode, b = Tiktoken encode /\ text <> EmptyString /\ encode text = Raise e.
Proof.
  unfold count_tokens. destruct text as [|c text]; [discriminate|].
  cbn [truthy negb]. destruct b as [|encode]; cbn [HAS_TIKTOKEN encoder];
    [discriminate|].
  destruct (encode (String c text)) as [tokens|e0] eqn:He; cbn [obind];
    [discriminate|].
  intros [= <-]. exists encode. repeat split; [discriminate | exact He].
Qed.

Lemma sum_shift l acc : fold_left Z.add l acc = acc + Py.sum l.
Proof.
  unfold Py.sum. revert acc.
  induction l as [|x l IH]; intros acc; cbn [fold_left]; [lia|].
  rewrite IH, (IH (0 + x)). lia.
Qed.

Lemma sum_cons x l : Py.sum (x :: l) = x + Py.sum l.
Proof. unfold Py.sum at 1. cbn [fold_left]. rewrite sum_shift. lia. Qed.

Lemma len_join_empty texts : len (join EmptyString texts) = Py.sum (map len texts).
Proof.
  induction texts as [|t texts IH]; [reflexivity|].
  cbn [map]. rewrite sum_cons, <- IH. unfold join.
  destruct texts as [|t' texts]; cbn [String.concat].
  - change (len EmptyString) with 0. lia.
  - rewrite len_append. reflexivity.
Qed.

Lemma sum_nonneg l : Forall (fun x => 0 <= x) l -> 0 <= Py.sum l.
Proof.
  induction 1 as [|x l Hx _ IH]; [unfold Py.sum; cbn; lia|].
  rewrite sum_cons. lia.
Qed.

Lemma sum_permutation l k : l ≡ₚ k -> Py.sum l = Py.sum k.
Proof.
  induction 1 as [|x l k _ IH|x y l|l k m _ IH1 _ IH2];
    rewrite ?sum_cons; try lia; congruence.
Qed.

(** C7. The claim fails where the tokenizer refuses the text: inside
    [count_tokens] nothing catches what [encode] raises, so on a
    non-empty text [count_tokens] raises whatever the tokenizer raises
    and returns no integer. The tokenizer raises [ValueError] on a text
    that spells one of its special tokens. *)
Theorem count_tokens_propagates (encode : string -> Outcome (list Z))
    (text : string) (e : exn) :
  text <> EmptyString ->
  encode text = Raise e ->
  count_tokens (Tiktoken encode) text = Raise e.
Proof.
  intros Hne He. rewrite count_tokens_tiktoken by exact Hne.
  rewrite He. reflexivity.
Qed.

Lemma count_tokens_propagates_witness :
  count_tokens SimVariants.tiktoken SimVariants.special_token
  = Raise SimVariants.disallowed.
Proof.
  apply count_tokens_propagates; [discriminate | reflexivity].
Defined.

Lemma sum_map_sum_over {A} (f : A -> Z) l : Py.sum (map f l) = Spec.sum_over f l.
Proof.
  induction l as [|x l IH]; [reflexivity|].
  cbn [map Spec.sum_over]. rewrite sum_cons. lia.
Qed.

(** The traversal and the fold of the generator add up as the sum of
    the specification does. *)
Lemma sum_map_outcome {A} (f : A -> Outcome Z) l :
  obind (map_outcome f l) (fun counts => Return (Py.sum counts))
  = Spec.sum_of_outcomes f l.
Proof.
  induction l as [|x l IH]; [reflexivity|].
  cbn [map_outcome Spec.sum_of_outcomes]. rewrite <- IH.
  destruct (f x) as [n|e]; cbn [obind]; [|reflexivity].
  destruct (map_outcome f l) as [counts|e]; cbn [obind]; [|reflexivity].
  rewrite sum_cons. reflexivity.
Qed.

Lemma sum_of_outcomes_returns {A} (f : A -> Outcome Z) l total :
  Spec.sum_of_outcomes f l = Return total <->
  exists counts, map_outcome f l = Return counts /\ Py.sum counts = total.
Proof.
  rewrite <- sum_map_outcome.
  destruct (map_outcome f l) as [counts|e]; cbn [obind]; split.
  - intros [= <-]. eauto.
  - intros (counts' & [= <-] & <-). reflexivity.
  - discriminate.
  - intros (counts' & Hc & _). discriminate.
Qed.

(** A computation that uses the traversal only through the sum of its
    values uses the sum of the specification. *)
Lemma obind_sum {A B} (f : A -> Outcome Z) l (k : Z -> Outcome B) :
  obind (map_outcome f l) (fun counts => k (Py.sum counts))
  = obind (Spec.sum_of_outcomes f l) k.
Proof.
  rewrite <- sum_map_outcome.
  destruct (map_outcome f l); reflexivity.
Qed.

(** A sum that returns does not depend on the order of the elements. *)
Lemma sum_of_outcomes_permutation {A} (f : A -> Outcome Z) l k total :
  l ≡ₚ k -> Spec.sum_of_outcomes f l = Return total ->
  Spec.sum_of_outcomes f k = Return total.
Proof.
  intros Hperm Hl.
  apply sum_of_outcomes_returns in Hl as (counts & Hcounts & Hsum).
  destruct (map_outcome_permutation _ _ _ _ Hperm Hcounts) as (zs & Hzs & Hcz).
  apply sum_of_outcomes_returns. exists zs. split; [exact Hzs|].
  rewrite <- (sum_permutation _ _ Hcz). exact Hsum.
Qed.

Lemma count_tokens_batch_estimator texts :
  count_tokens_batch CharEstimator texts
  = Return (Spec.sum_over (fun t => len t / 4) texts).
Proof.
  unfold count_tokens_batch.
  rewrite (map_outcome_returns _ (fun t => len t / 4))
    by (intros t _; apply count_tokens_estimator).
  cbn [obind]. rewrite sum_map_sum_over. reflexivity.
Qed.

(** Four times the batch count plus the dropped remainders is the length
    of the concatenation. *)
Lemma estimator_batch_remainders texts :
  4 * Spec.sum_over (fun t => len t / 4) texts
    + Spec.sum_over (fun t => len t mod 4) texts
  = len (Spec.concatenation texts).
Proof.
  unfold Spec.concatenation.
  rewrite len_join_empty, sum_map_sum_over.
  induction texts as [|t texts IH]; [reflexivity|].
  cbn [Spec.sum_over].
  pose proof (Z.div_mod (len t) 4). lia.
Qed.

Lemma remainders_bound texts :
  0 <= Spec.sum_over (fun t => len t mod 4) texts
    <= 3 * Z.of_nat (length texts).
Proof.
  induction texts as [|t texts IH]; cbn [Spec.sum_over length]; [lia|].
  pose proof (Z.mod_pos_bound (len t) 4). lia.
Qed.

Lemma remainders_zero texts :
  Forall (fun t => len t mod 4 = 0) texts ->
  Spec.sum_over (fun t => len t mod 4) texts = 0.
Proof.
  induction 1 as [|t texts Ht _ IH]; cbn [Spec.sum_over]; lia.
Qed.

(** The claim that the estimator's batch count equals the count of the
    concatenation fails: two strings of two characters count [0] each,
    their concatenation counts [1]. *)
Lemma batch_differs_from_concatenation :
  count_tokens_batch CharEstimator ["ab"; "cd"]
    <> count_tokens CharEstimator (Spec.concatenation ["ab"; "cd"]).
Proof. vm_compute. discriminate. Qed.

(** C6, amended. [count_tokens_batch] is the sum of [count_tokens] over
    the list; under the character estimator this sum never exceeds
    [count_tokens] of the concatenation, falls short of it by at most
    three quarters of a token per string, and equals it when the length
    of every string is a multiple of four. *)
Theorem count_tokens_batch_spec (b : Backend) (texts : list string) :
  count_tokens_batch b texts = Spec.sum_of_outcomes (count_tokens b) texts
  /\ (exists batch whole,
        count_tokens_batch CharEstimator texts = Return batch
        /\ count_tokens CharEstimator (Spec.concatenation texts) = Return whole
        /\ batch <= whole <= batch + 3 * Z.of_nat (length texts) / 4)
  /\ (Forall (fun t => len t mod 4 = 0) texts ->
      count_tokens_batch CharEstimator texts
        = count_tokens CharEstimator (Spec.concatenation texts)).
Proof.
  split; [apply sum_map_outcome|].
  rewrite count_tokens_batch_estimator, count_tokens_estimator,
    <- estimator_batch_remainders.
  pose proof (remainders_bound texts) as Hr.
  set (n := Spec.sum_over (fun t => len t / 4) texts) in *.
  set (r := Spec.sum_over (fun t => len t mod 4) texts) in *.
  replace (4 * n + r) with (r + n * 4) by lia.
  rewrite Z.div_add by lia.
  split.
  - exists n, (r / 4 + n). split; [reflexivity|]. split; [reflexivity|].
    pose proof (Z.div_pos r 4).
    pose proof (Z.div_le_mono r (3 * Z.of_nat (length texts)) 4). lia.
  - intros Hall. subst r. rewrite (remainders_zero _ Hall). reflexivity.
Qed.

Lemma count_tokens_batch_spec_witness :
  let texts := ["abcd"; "efghijkl"] in
  Forall (fun t => len t mod 4 = 0) texts
  /\ count_tokens_batch CharEstimator texts
       = count_tokens CharEstimator (Spec.concatenation texts).
Proof.
  cbv zeta.
  assert (Hall : Forall (fun t => len t mod 4 = 0) ["abcd"; "efghijkl"])
    by (repeat constructor).
  split; [exact Hall|].
  exact (proj2 (proj2 (count_tokens_batch_spec CharEstimator _)) Hall).
Defined.

(** The read of a path without a NUL is the file system's. *)
Lemma open_and_read_plain fs path :
  has_nul path = false -> open_and_read fs path = fs path.
Proof. intros Hnul. unfold open_and_read. rewrite Hnul. reflexivity. Qed.

Lemma open_and_read_nul fs path :
  has_nul path = true ->
  open_and_read fs path = Raise (mk_exn ValueError "embedded null byte").
Proof. intros Hnul. unfold open_and_read. rewrite Hnul. reflexivity. Qed.

Lemma estimate_file_tokens_readable b fs path content :
  open_and_read fs path = Return content ->
  estimate_file_tokens b fs path
  = try_except (count_tokens b content) [IOError; OSError; UnicodeDecodeError]
      (fun _ => Return 0).
Proof. intros Hfs. unfold estimate_file_tokens. rewrite Hfs. reflexivity. Qed.

Lemma estimate_file_tokens_swallows b fs path e :
  open_and_read fs path = Raise e ->
  matches e [IOError; OSError; UnicodeDecodeError] = true ->
  estimate_file_tokens b fs path = Return 0.
Proof.
  intros Hfs Hm. unfold estimate_file_tokens, try_except. rewrite Hfs.
  cbn [obind]. rewrite Hm. reflexivity.
Qed.

(** The except clause is selective: an exception of another class
    leaves [estimate_file_tokens]. *)
Lemma estimate_file_tokens_propagates b fs path e :
  open_and_read fs path = Raise e ->
  matches e [IOError; OSError; UnicodeDecodeError] = false ->
  estimate_file_tokens b fs path = Raise e.
Proof.
  intros Hfs Hm. unfold estimate_file_tokens, try_except. rewrite Hfs.
  cbn [obind]. rewrite Hm. reflexivity.
Qed.

Lemma estimate_file_tokens_nonneg b fs path n :
  estimate_file_tokens b fs path = Return n -> 0 <= n.
Proof.
  unfold estimate_file_tokens, try_except.
  destruct (open_and_read fs path) as [content|e]; cbn [obind].
  - destruct (count_tokens b content) as [m|e] eqn:Hc.
    + intros [= <-]. eapply count_tokens_nonneg; eassumption.
    + destruct (matches e _); [intros [= <-]; lia | discriminate].
  - destruct (matches e _); [intros [= <-]; lia | discriminate].
Qed.

(** C8. The claim fails at a missing file whose path holds a NUL
    character: [open] raises [ValueError] for such a path, the except
    clause lists [OSError] and [UnicodeDecodeError] only, and the
    exception leaves [estimate_file_tokens], whatever the backend and
    whatever the file system holds. *)
Theorem estimate_file_tokens_nul_path (b : Backend)
    (fs : string -> Outcome string) (path : string) :
  has_nul path = true ->
  estimate_file_tokens b fs path = Raise (mk_exn ValueError "embedded null byte").
Proof.
  intros Hnul. apply estimate_file_tokens_propagates; [|reflexivity].
  apply open_and_read_nul. exact Hnul.
Qed.

Lemma estimate_file_tokens_nul_path_witness :
  estimate_file_tokens CharEstimator
    (Searcher.open_read (Searcher.ext SimVariants.world_nul)) SimVariants.nul_path
  = Raise SimVariants.null_byte.
Proof.
  apply estimate_file_tokens_nul_path. reflexivity.
Defined.

End TokenCounterFacts.

(** ** Floats: rounding stays below a representable bound *)

Section FloatFacts.
Import Py Dyadic.

Lemma pow2_pos_Q e : (0 < 2 ^ e)%Q.
Proof. apply Qpower_0_lt. reflexivity. Qed.

Lemma dyadic_le_iff a b e : (dyadic a e <= dyadic b e)%Q <-> a <= b.
Proof.
  unfold dyadic. rewrite Qmult_le_r by apply pow2_pos_Q.
  rewrite Zle_Qle. reflexivity.
Qed.

Lemma dyadic_shift m e n : 0 <= n -> (dyadic (m * 2 ^ n) e == dyadic m (e + n))%Q.
Proof.
  intros Hn. unfold dyadic.
  rewrite inject_Z_mult, Zpower_Qpower by assumption.
  rewrite Qpower_plus by discriminate.
  change (inject_Z 2) with 2%Q. ring.
Qed.

Lemma dyadic_pow2 k e : 0 <= k -> (dyadic (2 ^ k) e == 2 ^ (k + e))%Q.
Proof.
  intros Hk. unfold dyadic. rewrite Zpower_Qpower by assumption.
  rewrite Qpower_plus by discriminate. reflexivity.
Qed.

Lemma digits2_pos_spec p :
  2 ^ (Zpos (digits2_pos p) - 1) <= Zpos p < 2 ^ Zpos (digits2_pos p).
Proof.
  induction p as [p IH|p IH|]; cbn [digits2_pos].
  - rewrite Pos2Z.inj_succ.
    replace (Z.succ (Zpos (digits2_pos p)) - 1) with (Z.succ (Zpos (digits2_pos p) - 1)) by lia.
    rewrite !Z.pow_succ_r by lia. lia.
  - rewrite Pos2Z.inj_succ.
    replace (Z.succ (Zpos (digits2_pos p)) - 1) with (Z.succ (Zpos (digits2_pos p) - 1)) by lia.
    rewrite !Z.pow_succ_r by lia. lia.
  - cbn. lia.
Qed.

Lemma Zdigits2_spec m : 0 < m -> 2 ^ (Zdigits2 m - 1) <= m < 2 ^ Zdigits2 m.
Proof. destruct m as [|p|p]; try lia. intros _. apply digits2_pos_spec. Qed.

Lemma Zdigits2_pos m : 0 < m -> 0 < Zdigits2 m.
Proof. destruct m; cbn; lia. Qed.

(** A larger positive dyadic has at least as large a magnitude. *)
Lemma dyadic_digits_mono m e M E :
  0 < m -> 0 < M -> (dyadic m e <= dyadic M E)%Q ->
  Zdigits2 m + e <= Zdigits2 M + E.
Proof.
  intros Hm HM Hle.
  pose proof (Zdigits2_spec m Hm) as [Hlo _].
  pose proof (Zdigits2_spec M HM) as [_ Hhi].
  pose proof (Zdigits2_pos m Hm). pose proof (Zdigits2_pos M HM).
  assert (H1 : (2 ^ (Zdigits2 m - 1 + e) <= dyadic m e)%Q).
  { rewrite <- dyadic_pow2 by lia. apply dyadic_le_iff. exact Hlo. }
  assert (H2 : (dyadic M E < 2 ^ (Zdigits2 M + E))%Q).
  { rewrite <- dyadic_pow2 by lia. unfold dyadic.
    apply Qmult_lt_r; [apply pow2_pos_Q|]. rewrite <- Zlt_Qlt. exact Hhi. }
  assert (H3 : (2 ^ (Zdigits2 m - 1 + e) < 2 ^ (Zdigits2 M + E))%Q).
  { eapply Qle_lt_trans; [exact H1|]. eapply Qle_lt_trans; eassumption. }
  apply Qpower_lt_compat_l_inv in H3; [lia | reflexivity].
Qed.


(** *** Right shifts with round and sticky bits *)

Lemma shifted_1 x : shifted 1 x (shr_1 x).
Proof.
  intros Hx. destruct x as [m r s]. cbn [shr_m] in Hx. unfold inexact.
  change (2 ^ 1) with 2.
  destruct m as [|[p|p|]|p]; try lia; cbn [shr_1 shr_m shr_r shr_s].
  - split; [reflexivity|]. cbn. destruct r, s; cbn; intuition congruence.
  - split.
    + rewrite Pos2Z.inj_xI. apply (Z.div_unique _ _ _ 1); lia.
    + rewrite Pos2Z.inj_xI.
      replace ((2 * Zpos p + 1) mod 2) with 1
        by (apply (Z.mod_unique _ _ (Zpos p)); lia).
      cbn. intuition (discriminate || lia).
  - split.
    + rewrite Pos2Z.inj_xO. apply (Z.div_unique _ _ _ 0); lia.
    + rewrite Pos2Z.inj_xO.
      replace ((2 * Zpos p) mod 2) with 0
        by (apply (Z.mod_unique _ _ (Zpos p)); lia).
      destruct r, s; cbn; intuition congruence.
  - split; [reflexivity|]. cbn. intuition (discriminate || lia).
Qed.

Lemma shifted_trans a b x y z :
  0 < a -> 0 < b -> shifted a x y -> shifted b y z -> shifted (a + b) x z.
Proof.
  intros Ha Hb Hxy Hyz Hx.
  destruct (Hxy Hx) as [Hm1 Hi1].
  assert (Hy : 0 <= shr_m y).
  { rewrite Hm1. apply Z.div_pos; [assumption | apply Z.pow_pos_nonneg; lia]. }
  destruct (Hyz Hy) as [Hm2 Hi2].
  assert (0 < 2 ^ a) by (apply Z.pow_pos_nonneg; lia).
  assert (0 < 2 ^ b) by (apply Z.pow_pos_nonneg; lia).
  rewrite Z.pow_add_r by lia. split.
  - rewrite Hm2, Hm1. apply Z.div_div; lia.
  - rewrite Hi2, Hi1, Hm1. rewrite Z.rem_mul_r by lia.
    pose proof (Z.mod_pos_bound (shr_m x) (2 ^ a)).
    pose proof (Z.mod_pos_bound (shr_m x / 2 ^ a) (2 ^ b)).
    intuition nia.
Qed.

Lemma shifted_iter p x : shifted (Zpos p) x (SpecFloat.iter_pos shr_1 p x).
Proof.
  revert x. induction p as [p IH|p IH|]; intros x; cbn [SpecFloat.iter_pos].
  - rewrite Pos2Z.inj_xI.
    replace (2 * Zpos p + 1) with (1 + Zpos p + Zpos p) by lia.
    eapply shifted_trans; [lia | lia | | apply IH].
    eapply shifted_trans; [lia | lia | apply shifted_1 | apply IH].
  - rewrite Pos2Z.inj_xO.
    replace (2 * Zpos p) with (Zpos p + Zpos p) by lia.
    eapply shifted_trans; [lia | lia | apply IH | apply IH].
  - apply shifted_1.
Qed.

Lemma inexact_of_loc m l :
  inexact (shr_record_of_loc m l) = false <-> l = loc_Exact.
Proof. destruct l as [|[]]; cbn; intuition congruence. Qed.

Lemma loc_exact_iff y : loc_of_shr_record y = loc_Exact <-> inexact y = false.
Proof. destruct y as [m [] []]; cbn; intuition congruence. Qed.

Lemma shr_m_of_loc m l : shr_m (shr_record_of_loc m l) = m.
Proof. destruct l as [|[]]; reflexivity. Qed.

Lemma round_nearest_even_bounds m l :
  m <= round_nearest_even m l <= m + 1
  /\ (l = loc_Exact -> round_nearest_even m l = m).
Proof.
  destruct l as [|[]]; cbn [round_nearest_even]; try destruct (Z.even m);
    split; try lia; congruence.
Qed.

(** [shr_fexp]: either nothing moves, or the mantissa is shifted to the
    exponent [fexp] asks for. *)
Lemma shr_fexp_spec m e l :
  0 <= m ->
  let n := fexp prec emax (Zdigits2 m + e) - e in
  let '(y, e') := shr_fexp prec emax m e l in
  0 <= shr_m y
  /\ ((n <= 0 /\ e' = e /\ shr_m y = m /\ (inexact y = false <-> l = loc_Exact))
      \/ (0 < n /\ e' = e + n /\ shr_m y = m / 2 ^ n
          /\ (inexact y = false <-> l = loc_Exact /\ m mod 2 ^ n = 0))).
Proof.
  intros Hm n. unfold shr_fexp, shr. fold n.
  destruct n as [|p|p] eqn:Hn.
  - rewrite shr_m_of_loc. split; [assumption|]. left.
    repeat split; try lia; apply inexact_of_loc.
  - pose proof (shifted_iter p (shr_record_of_loc m l)) as Hs.
    unfold shifted in Hs. rewrite shr_m_of_loc in Hs. destruct (Hs Hm) as [Hy Hi].
    split.
    + rewrite Hy. apply Z.div_pos; [assumption | apply Z.pow_pos_nonneg; lia].
    + right. rewrite Hi, inexact_of_loc. repeat split; try lia; tauto.
  - rewrite shr_m_of_loc. split; [assumption|]. left.
    repeat split; try lia; apply inexact_of_loc.
Qed.


Lemma fexp_eq a : fexp prec emax a = Z.max (a - 53) (-1074).
Proof. reflexivity. Qed.

(** Rounding never crosses a representable upper bound [M * 2^E] of the
    exact value, and so does not overflow below [2^emax]. *)
Lemma binary_round_aux_upper mx ex lx M E :
  0 <= mx -> 0 < M ->
  ex <= emax - prec ->
  fexp prec emax (Zdigits2 M + E) <= E ->
  Zdigits2 M + E <= emax ->
  (dyadic (upper_of mx lx) ex <= dyadic M E)%Q ->
  match binary_round_aux prec emax false mx ex lx with
  | S754_zero s => s = false
  | S754_finite s m e => s = false /\ (dyadic (Zpos m) e <= dyadic M E)%Q
  | _ => False
  end.
Proof.
  intros Hmx HM Hex HE Hmag Hbound. unfold binary_round_aux.
  assert (Hup : mx <= upper_of mx lx) by (destruct lx; cbn; lia).
  assert (Hmono : 0 < mx -> Zdigits2 mx + ex <= Zdigits2 M + E).
  { intros Hpos. apply dyadic_digits_mono; try assumption.
    eapply Qle_trans; [|exact Hbound]. apply dyadic_le_iff. exact Hup. }
  pose proof (shr_fexp_spec mx ex lx Hmx) as S1. cbv zeta in S1.
  destruct (shr_fexp prec emax mx ex lx) as [y1 e1]. destruct S1 as [Hy1 S1].
  set (r := round_nearest_even (shr_m y1) (loc_of_shr_record y1)).
  destruct (round_nearest_even_bounds (shr_m y1) (loc_of_shr_record y1))
    as [Hr Hrex]. fold r in Hr, Hrex. rewrite loc_exact_iff in Hrex.
  rewrite fexp_eq in HE. change (emax - prec) with 971 in *.
  change emax with 1024 in Hmag.
  assert (Hre : (dyadic r e1 <= dyadic M E)%Q /\ e1 <= 971).
  { destruct S1 as [(Hn & -> & Hm1 & Hi1) | (Hn & -> & Hm1 & Hi1)].
    - split; [|assumption]. eapply Qle_trans; [|exact Hbound].
      apply dyadic_le_iff. destruct lx as [|c]; cbn [upper_of].
      + rewrite Hrex by (apply Hi1; reflexivity). lia.
      + lia.
    - rewrite fexp_eq in *.
      set (n := Z.max (Zdigits2 mx + ex - 53) (-1074) - ex) in *.
      assert (He1 : ex + n <= E /\ ex + n <= 971).
      { destruct (Z.eq_dec mx 0) as [->|Hne].
        - cbn [Zdigits2] in n. lia.
        - assert (0 < mx) as Hpos by lia. specialize (Hmono Hpos). lia. }
      destruct He1 as [He1 He1']. split; [|assumption].
      assert (H2n : 0 < 2 ^ n) by (apply Z.pow_pos_nonneg; lia).
      set (K := M * 2 ^ (E - (ex + n))).
      assert (HB : (dyadic M E == dyadic K (ex + n))%Q).
      { unfold K. rewrite dyadic_shift by lia.
        replace (ex + n + (E - (ex + n))) with E by lia. reflexivity. }
      assert (HupK : upper_of mx lx <= K * 2 ^ n).
      { apply (dyadic_le_iff _ _ ex). rewrite dyadic_shift by lia.
        rewrite <- HB. exact Hbound. }
      rewrite HB. apply dyadic_le_iff.
      destruct (inexact y1) eqn:Hin.
      + assert (mx < K * 2 ^ n) as Hlt.
        { destruct lx as [|c]; cbn [upper_of] in HupK; [|lia].
          assert (mx mod 2 ^ n <> 0) as Hmod.
          { intros Hz. assert (true = false); [|discriminate].
            apply Hi1. split; [reflexivity | exact Hz]. }
          assert (mx <> K * 2 ^ n); [|lia].
          intros Heq. apply Hmod. rewrite Heq. apply Z.mod_mul. lia. }
        assert (mx / 2 ^ n < K); [|lia].
        apply Z.div_lt_upper_bound; lia.
      + destruct (proj1 Hi1 eq_refl) as [-> Hmod]. cbn [upper_of] in HupK.
        rewrite Hrex by reflexivity. rewrite Hm1.
        apply Z.div_le_upper_bound; lia. }
  destruct Hre as [Hre He1].
  assert (Hr0 : 0 <= r) by lia.
  pose proof (shr_fexp_spec r e1 loc_Exact Hr0) as S2. cbv zeta in S2.
  destruct (shr_fexp prec emax r e1 loc_Exact) as [y2 e2].
  destruct S2 as [Hy2 S2].
  assert (Hfin : (dyadic (shr_m y2) e2 <= dyadic M E)%Q
                 /\ (0 < shr_m y2 -> e2 <= 971)).
  { destruct S2 as [(Hn & -> & Hm2 & _) | (Hn & -> & Hm2 & _)].
    - rewrite Hm2. split; [exact Hre | intros _; exact He1].
    - rewrite fexp_eq in *.
      set (n := Z.max (Zdigits2 r + e1 - 53) (-1074) - e1) in *.
      assert (H2n : 0 < 2 ^ n) by (apply Z.pow_pos_nonneg; lia).
      split.
      + eapply Qle_trans; [|exact Hre]. rewrite <- dyadic_shift by lia.
        apply dyadic_le_iff. rewrite Hm2.
        pose proof (Z.mul_div_le r (2 ^ n) H2n). lia.
      + intros Hpos. assert (0 < r) as Hrpos.
        { destruct (Z.eq_dec r 0) as [Hz|]; [|lia].
          rewrite Hz, Z.div_0_l in Hm2 by lia. lia. }
        pose proof (dyadic_digits_mono r e1 M E Hrpos HM Hre). lia. }
  destruct Hfin as [Hval He2].
  destruct (shr_m y2) as [|m|m] eqn:Hm; [reflexivity | | lia].
  replace (e2 <=? 971) with true by (symmetry; apply Z.leb_le; lia).
  split; [reflexivity | exact Hval].
Qed.


(** *** The three float operations of [calculate_savings] *)

Lemma new_location_upper nb q r :
  upper_of q (new_location nb r) <= (if r =? 0 then q else q + 1).
Proof.
  unfold new_location, new_location_even, new_location_odd.
  destruct (Z.even nb), (r =? 0); cbn [upper_of]; lia.
Qed.

(** A ratio [a / b] with [0 <= a <= b] divides to a float in [[0, 1]]. *)
Lemma int_true_divide_unit a b :
  0 <= a <= b -> 0 < b ->
  exists q, int_true_divide a b = Return q /\ below 1 0 q.
Proof.
  intros [Ha Hab] Hb. unfold int_true_divide.
  replace (b =? 0) with false by (symmetry; apply Z.eqb_neq; lia).
  destruct b as [|pb|pb]; try lia.
  destruct a as [|pa|pa]; try lia.
  { exists (S754_zero false). split; reflexivity. }
  cbn [exact_int SFdiv xorb]. unfold SFdiv_core_binary.
  rewrite !Z.add_0_r, Z.sub_0_r. rewrite fexp_eq.
  set (e' := Z.min (Z.max (Zdigits2 (Zpos pa) - Zdigits2 (Zpos pb) - 53) (-1074)) 0).
  set (k := 0 - e').
  assert (Hk : 0 <= k) by lia.
  set (m' := match k with Zpos _ => Z.shiftl (Zpos pa) k | 0 => Zpos pa | Zneg _ => 0 end).
  assert (Hm' : m' = Zpos pa * 2 ^ k).
  { unfold m'. destruct k as [|pk|pk] eqn:Ek; try lia.
    apply Z.shiftl_mul_pow2. lia. }
  clearbody m'. subst m'.
  assert (H2k : 0 < 2 ^ k) by (apply Z.pow_pos_nonneg; lia).
  pose proof (Z_div_mod (Zpos pa * 2 ^ k) (Zpos pb) ltac:(lia)) as Hdm.
  destruct (Z.div_eucl (Zpos pa * 2 ^ k) (Zpos pb)) as [q r].
  destruct Hdm as [Hdm Hr].
  assert (Hq0 : 0 <= q) by nia.
  assert (Hup : upper_of q (new_location (Zpos pb) r) <= 2 ^ k).
  { etransitivity; [apply new_location_upper|].
    destruct (Z.eqb_spec r 0); nia. }
  pose proof (binary_round_aux_upper q e' (new_location (Zpos pb) r) 1 0
                Hq0 ltac:(lia)) as Hround.
  assert (Hbelow : below 1 0 (binary_round_aux prec emax false q e'
                                (new_location (Zpos pb) r))).
  { apply Hround.
    - change (emax - prec) with 971. lia.
    - apply Z.leb_le. reflexivity.
    - apply Z.leb_le. reflexivity.
    - assert (Hone : (dyadic 1 0 == dyadic (2 ^ k) e')%Q).
      { rewrite <- (Z.mul_1_l (2 ^ k)), dyadic_shift by lia.
        replace (e' + k) with 0 by lia. reflexivity. }
      rewrite Hone. apply dyadic_le_iff. exact Hup. }
  destruct (binary_round_aux prec emax false q e' (new_location (Zpos pb) r))
    as [s|s| |s m e] eqn:Hres; cbn [below] in Hbelow; try contradiction.
  - eexists. split; [reflexivity|]. exact Hbelow.
  - eexists. split; [reflexivity|]. exact Hbelow.
Qed.

Lemma float_of_int_100 : float_of_int 100 = Return hundred.
Proof. reflexivity. Qed.

Lemma below_exponent m e : (dyadic (Zpos m) e <= dyadic 1 0)%Q -> e <= 0.
Proof.
  intros Hle. apply (Qpower_le_compat_l_inv 2); [|reflexivity].
  eapply Qle_trans; [|exact Hle].
  rewrite <- (Z.add_0_l e), <- dyadic_pow2 by lia.
  apply dyadic_le_iff. lia.
Qed.

(** A float in [[0, 1]] times [100] is a float in [[0, 100]]. *)
Lemma float_mul_int_100 q :
  below 1 0 q ->
  exists p, float_mul_int q 100 = Return p /\ below 100 0 p.
Proof.
  intros Hq. unfold float_mul_int. rewrite float_of_int_100. cbn [obind].
  eexists. split; [reflexivity|].
  destruct q as [s| | |s m e]; cbn [below] in Hq; try contradiction.
  - subst s. reflexivity.
  - destruct Hq as [-> Hq]. cbn [SFmul hundred xorb].
    pose proof (below_exponent m e Hq) as He.
    apply binary_round_aux_upper.
    + lia.
    + lia.
    + change (emax - prec) with 971. lia.
    + apply Z.leb_le. reflexivity.
    + apply Z.leb_le. reflexivity.
    + cbn [upper_of]. rewrite Pos2Z.inj_mul.
      change (Zpos 7036874417766400) with (100 * 2 ^ 46).
      rewrite Z.mul_assoc, dyadic_shift by lia.
      replace (e + -46 + 46) with e by lia.
      unfold dyadic in *. rewrite inject_Z_mult.
      change (inject_Z 100 * 2 ^ 0)%Q with (inject_Z 100 * (inject_Z 1 * 2 ^ 0))%Q.
      rewrite <- (Qmult_assoc (inject_Z (Zpos m))), (Qmult_comm (inject_Z (Zpos m))).
      rewrite <- Qmult_assoc.
      apply Qmult_le_l; [reflexivity|].
      rewrite Qmult_comm. exact Hq.
Qed.


Lemma div_half_even_range num den bound :
  0 < den -> 0 <= num <= bound * den -> 0 <= div_half_even num den <= bound.
Proof.
  intros Hden [Hlo Hhi]. unfold div_half_even.
  pose proof (Z.div_mod num den ltac:(lia)) as Hdm.
  pose proof (Z.mod_pos_bound num den Hden) as Hr.
  assert (0 <= num / den) by (apply Z.div_pos; lia).
  assert (num / den <= bound) by (apply Z.div_le_upper_bound; lia).
  destruct (Z.compare_spec (2 * (num mod den)) den);
    try destruct (Z.even (num / den)); nia.
Qed.

Lemma tenths_range m e :
  (dyadic (Zpos m) e <= dyadic 100 0)%Q -> 0 <= tenths m e <= 1000.
Proof.
  intros Hle. unfold tenths. destruct e as [|pe|pe].
  - apply dyadic_le_iff in Hle. lia.
  - rewrite <- (Z.add_0_l (Zpos pe)), <- dyadic_shift in Hle by lia.
    apply dyadic_le_iff in Hle. lia.
  - assert (H2 : 0 < 2 ^ Zpos pe) by (apply Z.pow_pos_nonneg; lia).
    assert (Hm : Zpos m <= 100 * 2 ^ Zpos pe).
    { apply (dyadic_le_iff _ _ (Zneg pe)). rewrite dyadic_shift by lia.
      replace (Zneg pe + Zpos pe) with 0 by lia. exact Hle. }
    apply div_half_even_range; lia.
Qed.

Lemma tenth_table : forallb tenth_in_range (seq 0 1001) = true.
Proof. vm_compute. reflexivity. Qed.

Lemma tenth_percent n :
  0 <= n <= 1000 ->
  check_overflow "rounded value too large to represent" (tenth n) = Return (tenth n)
  /\ in_percent_range (tenth n).
Proof.
  intros Hn. pose proof tenth_table as Htab.
  rewrite forallb_forall in Htab. specialize (Htab (Z.to_nat n)).
  unfold tenth_in_range in Htab. rewrite Z2Nat.id in Htab by lia.
  assert (Hin : In (Z.to_nat n) (seq 0 1001)) by (apply in_seq; lia).
  specialize (Htab Hin). unfold in_percent_range.
  destruct (tenth n) as [[]|s| |[] m e]; try discriminate.
  - split; [reflexivity|]. split; reflexivity.
  - apply andb_true_iff in Htab. split; [reflexivity | exact Htab].
Qed.

(** A float in [[0, 100]] rounds to a float [n / 10] with [0 <= n <= 1000]. *)
Lemma round1_percent p :
  below 100 0 p ->
  exists n, 0 <= n <= 1000 /\ round1 p = Return (tenth n)
            /\ in_percent_range (tenth n).
Proof.
  intros Hp. destruct p as [s| | |s m e]; cbn [below] in Hp; try contradiction.
  - subst s. exists 0. split; [lia|]. split; [reflexivity|].
    split; reflexivity.
  - destruct Hp as [-> Hp]. pose proof (tenths_range m e Hp) as Hn.
    exists (tenths m e). split; [exact Hn|].
    destruct (tenth_percent _ Hn) as [Hret Hrange]. split; [|exact Hrange].
    unfold round1. cbv zeta. cbn [cond_Zopp]. unfold tenth in *.
    destruct (tenths m e =? 0); [reflexivity | exact Hret].
Qed.

End FloatFacts.

(** ** Savings *)

Section SavingsFacts.
Import Py TokenCounter Dyadic.

Lemma calculate_savings_nonpositive used without :
  without <= 0 ->
  calculate_savings used without =
    Return (mk_stats used without (Z.max 0 (without - used)) (S754_zero false)).
Proof.
  intros Hle. unfold calculate_savings.
  replace (0 <? without) with false by (symmetry; apply Z.ltb_ge; lia).
  reflexivity.
Qed.

Lemma percent_of_returns saved without :
  0 <= saved <= without -> 0 < without ->
  exists n, 0 <= n <= 1000
            /\ Spec.percent_of saved without = Return (tenth n)
            /\ in_percent_range (tenth n).
Proof.
  intros Hs Hw. unfold Spec.percent_of.
  destruct (int_true_divide_unit saved without Hs Hw) as (q & -> & Hq).
  cbn [obind].
  destruct (float_mul_int_100 q Hq) as (p & -> & Hp). cbn [obind].
  destruct (round1_percent p Hp) as (n & Hn & Hround & Hrange).
  exists n. auto.
Qed.

Lemma calculate_savings_positive used without :
  0 <= used -> 0 < without ->
  exists n, 0 <= n <= 1000
    /\ calculate_savings used without =
         Return (mk_stats used without (Z.max 0 (without - used)) (tenth n))
    /\ Spec.percent_of (Z.max 0 (without - used)) without = Return (tenth n)
    /\ in_percent_range (tenth n).
Proof.
  intros Hu Hw.
  destruct (percent_of_returns (Z.max 0 (without - used)) without)
    as (n & Hn & Hpct & Hrange); [lia | lia |].
  exists n. split; [exact Hn|]. split; [|split; assumption].
  unfold calculate_savings.
  replace (0 <? without) with true by (symmetry; apply Z.ltb_lt; lia).
  unfold Spec.percent_of in Hpct. rewrite Hpct. reflexivity.
Qed.

(** C2. For [used >= 0] and [without >= 0], [calculate_savings] returns
    the record with [tokens_used = used], [tokens_without_search = without]
    and [tokens_saved = max(0, without - used)]; when [without > 0] its
    [percent_saved] is [(tokens_saved / without) * 100] rounded to one
    decimal, a float [n / 10] lying in [[0, 100]]; when [without <= 0] it
    is [0.0]. *)
Theorem calculate_savings_spec (used without : Z) :
  0 <= used -> 0 <= without ->
  exists pct,
    calculate_savings used without =
      Return {| tokens_used := used;
                tokens_without_search := without;
                tokens_saved := Z.max 0 (without - used);
                percent_saved := pct |}
    /\ (0 < without ->
        Spec.percent_of (Z.max 0 (without - used)) without = Return pct
        /\ (exists n, 0 <= n <= 1000 /\ pct = tenth n)
        /\ in_percent_range pct)
    /\ (without <= 0 -> pct = S754_zero false).
Proof.
  intros Hu Hw. destruct (Z.eq_dec without 0) as [Hz|Hnz].
  - exists (S754_zero false).
    split; [apply calculate_savings_nonpositive; lia|].
    split; [lia | reflexivity].
  - destruct (calculate_savings_positive used without) as (n & Hn & Hret & Hpct & Hrange);
      [lia | lia |].
    exists (tenth n). split; [exact Hret|]. split; [|lia].
    intros _. eauto.
Qed.

(** The example of the specification: [calculate_savings(150, 2000)]
    saves 1850 tokens, 92.5 percent. *)
Lemma calculate_savings_spec_witness :
  exists pct,
    calculate_savings 150 2000 = Return (mk_stats 150 2000 1850 pct)
    /\ pct = tenth 925 /\ in_percent_range pct.
Proof.
  destruct (calculate_savings_spec 150 2000) as (pct & Hret & Hpos & _);
    [lia | lia |].
  exists pct. split; [exact Hret|].
  destruct Hpos as (Hpct & _ & Hrange); [lia|].
  split; [|exact Hrange].
  vm_compute in Hpct. injection Hpct as <-. vm_compute. reflexivity.
Defined.

End SavingsFacts.

(** ** Searcher: error handling *)

Section SearcherFacts.
Import Py TokenCounter Searcher.
Context {S V : Type} `{Collaborators S V}.

Lemma isinstance_Exception e : isinstance e Exception = true.
Proof. destruct e as [[] msg]; reflexivity. Qed.

Lemma matches_Exception e : matches e [Exception] = true.
Proof. unfold matches. cbn [existsb]. rewrite isinstance_Exception. reflexivity. Qed.

(** [search_code] as a case analysis on its three collaborator calls. *)
Lemma search_code_cases query persist_path top_k w :
  search_code query persist_path top_k w =
  match init_db persist_path (ext w) with
  | (Raise e, s1) => handled w s1 e
  | (Return _, s1) =>
      match embed_query query s1 with
      | (Raise e, s2) => handled w s2 e
      | (Return v, s2) =>
          match db_search v top_k s2 with
          | (Raise e, s3) => handled w s3 e
          | (Return rs, s3) => (Return rs, mk_world s3 (stdout w))
          end
      end
  end.
Proof.
  assert (Hhandler : forall e s,
            bind (print ("Search error: " +:+ exn_str e)) (fun _ => ret [])
              (mk_world s (stdout w)) = handled w s e).
  { intros e s. unfold bind, print, ret, handled, after_error, diagnostic.
    cbn [ext stdout]. destruct (stdout_write s _); reflexivity. }
  unfold search_code, try_catch.
  unfold bind at 1 2 3, call, ret.
  destruct (init_db persist_path (ext w)) as [[u|e] s1]; cbn -[matches bind print];
    [|rewrite matches_Exception; apply Hhandler].
  destruct (embed_query query s1) as [[v|e] s2]; cbn -[matches bind print];
    [|rewrite matches_Exception; apply Hhandler].
  destruct (db_search v top_k s2) as [[rs|e] s3]; cbn -[matches bind print];
    [reflexivity | rewrite matches_Exception; apply Hhandler].
Qed.

(** The errors of the three calls are caught: when the diagnostic can be
    printed, [search_code] returns the empty list. *)
Lemma handled_returns (w : World S) s e u :
  stdout_write s (diagnostic e) = Return u ->
  handled w s e = (Return [], after_error w s e).
Proof. intros Hprint. unfold handled. rewrite Hprint. reflexivity. Qed.

Lemma handled_raises (w : World S) s e e' :
  stdout_write s (diagnostic e) = Raise e' ->
  handled w s e = (Raise e', mk_world s (stdout w)).
Proof. intros Hprint. unfold handled. rewrite Hprint. reflexivity. Qed.

(** C1. The claim fails where the diagnostic cannot be printed: the
    [print] of the except handler is itself unprotected, so when one of
    the three calls raises [e] and the write of the diagnostic raises
    [e'], [search_code] does not return the empty list: [e'] is
    propagated to the caller. *)
Theorem search_code_diagnostic_raises (query persist_path : string) (top_k : Z)
    (w : World S) (e : exn) (s : S) (e' : exn) :
  init_db persist_path (ext w) = (Raise e, s)
  \/ (exists u s1,
        init_db persist_path (ext w) = (Return u, s1)
        /\ embed_query query s1 = (Raise e, s))
  \/ (exists u s1 v s2,
        init_db persist_path (ext w) = (Return u, s1)
        /\ embed_query query s1 = (Return v, s2)
        /\ db_search v top_k s2 = (Raise e, s)) ->
  stdout_write s (diagnostic e) = Raise e' ->
  search_code query persist_path top_k w = (Raise e', mk_world s (stdout w)).
Proof.
  intros Hstage Hprint. rewrite search_code_cases.
  destruct Hstage as [-> | [(u & s1 & -> & ->) | (u & s1 & v & s2 & -> & -> & ->)]];
    apply handled_raises; exact Hprint.
Qed.

(** [is_indexed] as a case analysis on the probe and its two calls. *)
Lemma is_indexed_cases persist_path w :
  is_indexed persist_path w =
  if os_path_exists persist_path (ext w) then
    match init_db persist_path (ext w) with
    | (Raise _, s1) => (Return false, mk_world s1 (stdout w))
    | (Return _, s1) =>
        match get_stats s1 with
        | (Raise _, s2) => (Return false, mk_world s2 (stdout w))
        | (Return stats, s2) =>
            match stats !! "total_functions" with
            | Some total => (Return (0 <? total), mk_world s2 (stdout w))
            | None => (Return false, mk_world s2 (stdout w))
            end
        end
    end
  else (Return false, w).
Proof.
  unfold is_indexed, try_catch, bind, call, ret, observe, lift, getitem.
  destruct (os_path_exists persist_path (ext w)); cbn -[matches];
    [|destruct w; reflexivity].
  destruct (init_db persist_path (ext w)) as [[u|e] s1]; cbn -[matches];
    [|rewrite matches_Exception; reflexivity].
  destruct (get_stats s1) as [[stats|e] s2]; cbn -[matches];
    [|rewrite matches_Exception; reflexivity].
  destruct (stats !! "total_functions") as [total|]; cbn -[matches];
    [reflexivity | rewrite matches_Exception; reflexivity].
Qed.

(** C5. [is_indexed] returns [false] at once, leaving the state as it
    was (the index is not initialised), when nothing exists at the
    path; when the path exists it initialises the index, asks for the
    statistics and returns [true] exactly when the reported total is
    strictly positive; an error raised by the initialisation or by the
    statistics is turned into [false]; it never raises. *)
Theorem is_indexed_spec (persist_path : string) (w : World S) :
  (os_path_exists persist_path (ext w) = false ->
     is_indexed persist_path w = (Return false, w))
  /\ (os_path_exists persist_path (ext w) = true ->
      (forall u s1 stats s2 total,
         init_db persist_path (ext w) = (Return u, s1) ->
         get_stats s1 = (Return stats, s2) ->
         stats !! "total_functions" = Some total ->
         exists b, is_indexed persist_path w = (Return b, mk_world s2 (stdout w))
                   /\ (b = true <-> 0 < total))
      /\ (forall e s1,
            init_db persist_path (ext w) = (Raise e, s1) ->
            is_indexed persist_path w = (Return false, mk_world s1 (stdout w)))
      /\ (forall u s1 e s2,
            init_db persist_path (ext w) = (Return u, s1) ->
            get_stats s1 = (Raise e, s2) ->
            is_indexed persist_path w = (Return false, mk_world s2 (stdout w))))
  /\ (exists b w', is_indexed persist_path w = (Return b, w')).
Proof.
  rewrite is_indexed_cases. split; [|split].
  - intros ->. reflexivity.
  - intros ->. repeat split.
    + intros u s1 stats s2 total -> -> ->. exists (0 <? total).
      split; [reflexivity | apply Z.ltb_lt].
    + intros e s1 ->. reflexivity.
    + intros u s1 e s2 -> ->. reflexivity.
  - destruct (os_path_exists persist_path (ext w)); [|eauto].
    destruct (init_db persist_path (ext w)) as [[u|e] s1]; [|eauto].
    destruct (get_stats s1) as [[stats|e] s2]; [|eauto].
    destruct (stats !! "total_functions"); eauto.
Qed.

Variable backend : Backend.

(** C9. When the underlying search yields no result, [search_code_with_stats]
    returns the empty list paired with the all-zero statistics. *)
Theorem search_code_with_stats_empty (query persist_path : string) (top_k : Z)
    (w w' : World S) :
  search_code query persist_path top_k w = (Return [], w') ->
  search_code_with_stats backend query persist_path top_k w =
    (Return ([], {| tokens_used := 0; tokens_without_search := 0;
                    tokens_saved := 0; percent_saved := S754_zero false |}), w').
Proof.
  intros Hsearch. unfold search_code_with_stats, bind.
  rewrite Hsearch. reflexivity.
Qed.

End SearcherFacts.

(** The simulated world exercises the three theorems above. With the
    embedder unreachable and the standard output closed, the
    [ValueError] of [print] leaves [search_code]. *)

Lemma search_code_diagnostic_raises_witness :
  @Searcher.search_code _ _ SimVariants.closed_stdout
    "palindrome" Sim.chroma 5 Sim.world_embedder_down
  = (Py.Raise SimVariants.closed_file,
     Searcher.mk_world
       (Sim.mk_state {[ Sim.chroma := Sim.sample_results ]} ∅ false
                     (Some Sim.chroma) 1) []).
Proof.
  apply (@search_code_diagnostic_raises _ _ SimVariants.closed_stdout
           "palindrome" Sim.chroma 5 Sim.world_embedder_down
           (Py.mk_exn Py.ConnectionError "embedder unreachable")).
  - right. left. do 2 eexists. split; reflexivity.
  - reflexivity.
Defined.

Lemma is_indexed_spec_witness :
  Searcher.is_indexed "nowhere" Sim.world_ok = (Py.Return false, Sim.world_ok)
  /\ exists b w', Searcher.is_indexed Sim.chroma Sim.world_ok = (Py.Return b, w')
                  /\ (b = true <-> 0 < 4).
Proof.
  split.
  - apply (proj1 (is_indexed_spec "nowhere" Sim.world_ok)). reflexivity.
  - destruct (is_indexed_spec Sim.chroma Sim.world_ok) as [_ [Hexists _]].
    destruct Hexists as [Hok _]; [vm_compute; reflexivity|].
    pose (s1 := Sim.mk_state {[ Sim.chroma := Sim.sample_results ]}
                  {[ "a.py" := Sim.a_py ]} true (Some Sim.chroma) 1).
    destruct (Hok tt s1 {[ "total_functions" := 4 ]} s1 4) as [b Hb];
      [vm_compute; reflexivity ..|].
    exists b. eexists. exact Hb.
Defined.

Lemma search_code_with_stats_empty_witness :
  Searcher.search_code_with_stats TokenCounter.CharEstimator
    "palindrome" Sim.chroma 5 Sim.world_empty_index
  = (Py.Return ([], TokenCounter.mk_stats 0 0 0 (S754_zero false)),
     Searcher.mk_world
       (Sim.mk_state {[ Sim.chroma := [] ]} ∅ true (Some Sim.chroma) 1) []).
Proof.
  apply search_code_with_stats_empty. reflexivity.
Defined.

(** ** Searcher: token statistics *)

Section StatsFacts.
Import Py TokenCounter Searcher Dyadic.
Context {S V : Type} `{Collaborators S V}.
Variable backend : Backend.

(** The paths the generator of line 75 yields are the non-empty values
    of the [file_path] key. *)
Lemma truthy_paths_spec results fp :
  fp ∈ truthy_paths results
  <-> fp <> EmptyString /\ exists r, r ∈ results /\ file_path r = Some fp.
Proof.
  unfold truthy_paths. rewrite list_elem_of_omap. split.
  - intros (r & Hin & Hr). destruct (file_path r) as [fp'|] eqn:Hfp; [|discriminate].
    destruct fp' as [|c fp']; cbn [truthy] in Hr; [discriminate|].
    injection Hr as <-. split; [discriminate | eauto].
  - intros (Hne & r & Hin & Hfp). exists r. split; [exact Hin|].
    rewrite Hfp. destruct fp; [congruence | reflexivity].
Qed.

Lemma distinct_paths_spec results fp :
  fp ∈ Spec.distinct_paths results
  <-> fp <> EmptyString /\ exists r, r ∈ results /\ file_path r = Some fp.
Proof.
  unfold Spec.distinct_paths.
  rewrite elem_of_remove_dups, list_elem_of_filter, list_elem_of_omap.
  reflexivity.
Qed.

Lemma elem_of_file_paths_of results fp :
  fp ∈ file_paths_of results <-> fp ∈ truthy_paths results.
Proof.
  unfold file_paths_of. split; intros Hin.
  - rewrite elem_of_elements, elem_of_list_to_set in Hin. exact Hin.
  - rewrite elem_of_elements, elem_of_list_to_set. exact Hin.
Qed.

(** The iteration of the set visits the distinct paths, each once. *)
Lemma file_paths_of_distinct results :
  file_paths_of results ≡ₚ Spec.distinct_paths results.
Proof.
  apply NoDup_Permutation.
  - unfold file_paths_of. apply NoDup_elements.
  - apply NoDup_remove_dups.
  - intros fp.
    rewrite elem_of_file_paths_of, truthy_paths_spec, distinct_paths_spec.
    reflexivity.
Qed.

Lemma counts_nonneg fs paths counts :
  map_outcome (estimate_file_tokens backend fs) paths = Return counts ->
  0 <= Py.sum counts.
Proof.
  intros Hmap.
  pose proof (map_outcome_spec (estimate_file_tokens backend fs) paths) as Hspec.
  rewrite Hmap in Hspec. apply sum_nonneg.
  clear Hmap. induction Hspec as [|fp n paths' counts' Hfp _ IH]; constructor.
  - eapply estimate_file_tokens_nonneg; eassumption.
  - exact IH.
Qed.

(** The run of [search_code_with_stats] after [search_code] returned. *)
Lemma search_code_with_stats_run query persist_path top_k w rs w1 :
  search_code query persist_path top_k w = (Return rs, w1) ->
  search_code_with_stats backend query persist_path top_k w =
  (match rs with
   | [] => Return ([], zero_stats)
   | _ :: _ =>
       obind (count_tokens backend (join newline (map get_code rs)))
         (fun used =>
            obind (map_outcome (estimate_file_tokens backend (open_read (ext w1)))
                     (file_paths_of rs))
              (fun counts =>
                 obind (calculate_savings used
                          (if Py.sum counts =? 0
                           then 500 * Z.max 3 (Z.of_nat (length (file_paths_of rs)))
                           else Py.sum counts))
                   (fun st => Return (rs, st))))
   end, w1).
Proof.
  intros Hsearch. unfold search_code_with_stats, bind. rewrite Hsearch.
  destruct rs as [|r rs']; [reflexivity|].
  unfold observe, lift, ret.
  destruct (count_tokens _ _) as [used|e]; cbn [obind]; [|reflexivity].
  destruct (map_outcome _ _) as [counts|e]; cbn [obind]; [|reflexivity].
  destruct (calculate_savings _ _) as [st|e]; reflexivity.
Qed.

(** An exception of [search_code] passes through. *)
Lemma search_code_with_stats_search_raises query persist_path top_k w e w1 :
  search_code query persist_path top_k w = (Raise e, w1) ->
  search_code_with_stats backend query persist_path top_k w = (Raise e, w1).
Proof.
  intros Hsearch. unfold search_code_with_stats, bind. rewrite Hsearch.
  reflexivity.
Qed.

(** The run on a non-empty result list, in the terms of the
    specification: the token count of the joined code, then the sum of
    the estimates over the paths in the order the set gives them. *)
Lemma search_code_with_stats_equation query persist_path top_k w rs w1 :
  search_code query persist_path top_k w = (Return rs, w1) ->
  rs <> [] ->
  search_code_with_stats backend query persist_path top_k w
  = ((let! used := count_tokens backend (join newline (map get_code rs)) in
      let! total := Spec.sum_of_outcomes
                      (estimate_file_tokens backend (open_read (ext w1)))
                      (file_paths_of rs) in
      let! stats := calculate_savings used
                      (if total =? 0
                       then Spec.heuristic
                              (Z.of_nat (length (Spec.distinct_paths rs)))
                       else total) in
      Return (rs, stats))%outcome, w1).
Proof.
  intros Hsearch Hne.
  rewrite (search_code_with_stats_run _ _ _ _ _ _ Hsearch).
  destruct rs as [|r rs']; [congruence|]. set (rs := r :: rs') in *.
  f_equal. destruct (count_tokens _ _) as [used|e]; cbn [obind]; [|reflexivity].
  rewrite <- (Permutation_length (file_paths_of_distinct rs)).
  unfold Spec.heuristic.
  apply (obind_sum _ _
           (fun total =>
              obind (calculate_savings used
                       (if total =? 0
                        then 500 * Z.max 3 (Z.of_nat (length (file_paths_of rs)))
                        else total))
                (fun st => Return (rs, st)))).
Qed.

(** The run once the token count and the estimates have returned. *)
Lemma search_code_with_stats_returns query persist_path top_k w rs w1 used total :
  search_code query persist_path top_k w = (Return rs, w1) ->
  rs <> [] ->
  count_tokens backend (join newline (map get_code rs)) = Return used ->
  Spec.sum_of_outcomes (estimate_file_tokens backend (open_read (ext w1)))
    (Spec.distinct_paths rs) = Return total ->
  let without :=
    if total =? 0
    then Spec.heuristic (Z.of_nat (length (Spec.distinct_paths rs)))
    else total in
  exists pct,
    search_code_with_stats backend query persist_path top_k w
    = (Return (rs, mk_stats used without (Z.max 0 (without - used)) pct), w1).
Proof.
  intros Hsearch Hne Hused Htotal without.
  rewrite (search_code_with_stats_equation _ _ _ _ _ _ Hsearch Hne), Hused.
  cbn [obind].
  rewrite (sum_of_outcomes_permutation _ _ _ _
             (Permutation_sym (file_paths_of_distinct rs)) Htotal).
  cbn [obind]. fold without.
  assert (Htot : 0 <= total).
  { apply sum_of_outcomes_returns in Htotal as (counts & Hcounts & <-).
    eapply counts_nonneg; eassumption. }
  assert (Hpos : 0 < without).
  { unfold without, Spec.heuristic. destruct (Z.eqb_spec total 0); lia. }
  destruct (calculate_savings_positive used without) as (n & _ & Hret & _);
    [eapply count_tokens_nonneg; eassumption | exact Hpos |].
  exists (tenth n). rewrite Hret. reflexivity.
Qed.

(** The run when the token count returned and an estimate raises. *)
Lemma search_code_with_stats_estimate_raises query persist_path top_k w rs w1 used :
  search_code query persist_path top_k w = (Return rs, w1) ->
  count_tokens backend (join newline (map get_code rs)) = Return used ->
  (exists fp e, fp ∈ truthy_paths rs
                /\ estimate_file_tokens backend (open_read (ext w1)) fp = Raise e) ->
  exists fp e, fp ∈ truthy_paths rs
               /\ estimate_file_tokens backend (open_read (ext w1)) fp = Raise e
               /\ search_code_with_stats backend query persist_path top_k w
                  = (Raise e, w1).
Proof.
  intros Hsearch Hused (fp & e & Hin & Hraise).
  rewrite (search_code_with_stats_run _ _ _ _ _ _ Hsearch).
  destruct rs as [|r rs'].
  { cbn in Hin. apply elem_of_nil in Hin. contradiction. }
  set (rs := r :: rs') in *. rewrite Hused. cbn [obind].
  pose proof (map_outcome_spec (estimate_file_tokens backend (open_read (ext w1)))
                (file_paths_of rs)) as Hspec.
  destruct (map_outcome _ _) as [counts|e0]; cbn [obind].
  - apply elem_of_file_paths_of in Hin.
    destruct (Forall2_elem_l _ _ _ _ Hspec Hin) as [n Hn]. congruence.
  - destruct Hspec as (fp0 & Hin0 & Hraise0).
    apply elem_of_file_paths_of in Hin0. exists fp0, e0. auto.
Qed.

(** C3. On a non-empty result list returned by the search,
    [search_code_with_stats] computes [tokens_used] as [count_tokens] of
    the snippets' code joined with a newline in result order, and
    [tokens_without_search] as the sum of [estimate_file_tokens] over
    the distinct file paths of the results, each path counted once
    however many results share it (a sum of zero being then replaced by
    the heuristic): the run is the token count, then the sum over the
    distinct paths in some order, then [calculate_savings] of the two.
    So the statistics carry the two numbers whenever the two
    computations return, and an exception of either leaves
    [search_code_with_stats]. *)
Theorem search_code_with_stats_counts (query persist_path : string)
    (top_k : Z) (w w' : World S) (rs : list SearchResult) :
  search_code query persist_path top_k w = (Return rs, w') ->
  rs <> [] ->
  let fs := open_read (ext w') in
  let result_code := join newline (map get_code rs) in
  let distinct := Spec.distinct_paths rs in
  let run := search_code_with_stats backend query persist_path top_k w in
  (exists order,
     order ≡ₚ distinct
     /\ run = ((let! used := count_tokens backend result_code in
                let! total := Spec.sum_of_outcomes
                                (estimate_file_tokens backend fs) order in
                let! stats := calculate_savings used
                                (if total =? 0
                                 then Spec.heuristic (Z.of_nat (length distinct))
                                 else total) in
                Return (rs, stats))%outcome, w'))
  /\ (forall used total,
        count_tokens backend result_code = Return used ->
        Spec.sum_of_outcomes (estimate_file_tokens backend fs) distinct
          = Return total ->
        exists stats,
          run = (Return (rs, stats), w')
          /\ tokens_used stats = used
          /\ tokens_without_search stats =
               (if total =? 0 then Spec.heuristic (Z.of_nat (length distinct))
                else total))
  /\ (forall e, count_tokens backend result_code = Raise e ->
        run = (Raise e, w'))
  /\ (forall used,
        count_tokens backend result_code = Return used ->
        (exists fp e, fp ∈ distinct
                      /\ estimate_file_tokens backend fs fp = Raise e) ->
        exists fp e, fp ∈ distinct
                     /\ estimate_file_tokens backend fs fp = Raise e
                     /\ run = (Raise e, w')).
Proof.
  intros Hsearch Hne fs result_code distinct run. split; [|split; [|split]].
  - exists (file_paths_of rs). split; [apply file_paths_of_distinct|].
    apply search_code_with_stats_equation; assumption.
  - intros used total Hused Htotal.
    destruct (search_code_with_stats_returns _ _ _ _ _ _ _ _ Hsearch Hne Hused Htotal)
      as [pct Hrun].
    eexists. split; [exact Hrun|]. split; reflexivity.
  - intros e Hraise. unfold run.
    rewrite (search_code_with_stats_equation _ _ _ _ _ _ Hsearch Hne).
    fold result_code. rewrite Hraise. reflexivity.
  - intros used Hused (fp & e & Hin & Hraise).
    destruct (search_code_with_stats_estimate_raises _ _ _ _ _ _ _ Hsearch Hused)
      as (fp0 & e0 & Hin0 & Hraise0 & Hrun).
    { exists fp, e. split; [|exact Hraise].
      apply truthy_paths_spec, distinct_paths_spec. exact Hin. }
    exists fp0, e0. split; [|split; assumption].
    apply distinct_paths_spec, truthy_paths_spec. exact Hin0.
Qed.

(** C4. On a non-empty result list, whenever the sum of
    [estimate_file_tokens] over the distinct result file paths is [0],
    [tokens_without_search] is replaced by
    [500 * max(3, distinct_file_count)], the count being the number of
    distinct file paths of the results: it is this value that
    [calculate_savings] receives and that the statistics carry. The
    token count of line 71 comes before: the statistics are returned
    when it returns, and its exception is propagated when it raises. *)
Theorem search_code_with_stats_heuristic (query persist_path : string)
    (top_k : Z) (w w' : World S) (rs : list SearchResult) :
  search_code query persist_path top_k w = (Return rs, w') ->
  rs <> [] ->
  let fs := open_read (ext w') in
  let result_code := join newline (map get_code rs) in
  let distinct := Spec.distinct_paths rs in
  let run := search_code_with_stats backend query persist_path top_k w in
  Spec.sum_of_outcomes (estimate_file_tokens backend fs) distinct = Return 0 ->
  run = ((let! used := count_tokens backend result_code in
          let! stats := calculate_savings used
                          (500 * Z.max 3 (Z.of_nat (length distinct))) in
          Return (rs, stats))%outcome, w')
  /\ (forall used,
        count_tokens backend result_code = Return used ->
        exists stats,
          run = (Return (rs, stats), w')
          /\ tokens_without_search stats
             = 500 * Z.max 3 (Z.of_nat (length distinct)))
  /\ (forall e, count_tokens backend result_code = Raise e ->
        run = (Raise e, w')).
Proof.
  intros Hsearch Hne fs result_code distinct run Hzero.
  assert (Hrun : run = ((let! used := count_tokens backend result_code in
                         let! stats := calculate_savings used
                                         (500 * Z.max 3 (Z.of_nat (length distinct))) in
                         Return (rs, stats))%outcome, w')).
  { unfold run.
    rewrite (search_code_with_stats_equation _ _ _ _ _ _ Hsearch Hne).
    pose proof (sum_of_outcomes_permutation _ _ _ _
                  (Permutation_sym (file_paths_of_distinct rs)) Hzero) as Hsum.
    unfold fs, result_code, distinct in *. f_equal.
    destruct (count_tokens backend _) as [used|e]; cbn [obind]; [|reflexivity].
    rewrite Hsum. reflexivity. }
  split; [exact Hrun|]. split.
  - intros used Hused.
    destruct (search_code_with_stats_returns _ _ _ _ _ _ _ _ Hsearch Hne Hused Hzero)
      as [pct Hret].
    eexists. split; [exact Hret|]. reflexivity.
  - intros e Hraise. rewrite Hrun, Hraise. reflexivity.
Qed.

End StatsFacts.

(** Four results of [sample_results] name two files, one of them twice,
    and one result names none: the readable file is counted once. *)
Lemma search_code_with_stats_counts_witness :
  exists stats w',
    Searcher.search_code_with_stats TokenCounter.CharEstimator
      "palindrome" Sim.chroma 5 Sim.world_ok
      = (Py.Return (Sim.sample_results, stats), w')
    /\ Spec.distinct_paths Sim.sample_results = ["a.py"; "b.py"]
    /\ TokenCounter.tokens_used stats = 17
    /\ TokenCounter.tokens_without_search stats = 25.
Proof.
  pose (w' := Searcher.mk_world
                (Sim.mk_state {[ Sim.chroma := Sim.sample_results ]}
                   {[ "a.py" := Sim.a_py ]} true (Some Sim.chroma) 1) []).
  destruct (search_code_with_stats_counts TokenCounter.CharEstimator
              "palindrome" Sim.chroma 5 Sim.world_ok w' Sim.sample_results)
    as (_ & Hreturns & _).
  - vm_compute. reflexivity.
  - discriminate.
  - destruct (Hreturns 17 25) as (stats & Hrun & Hused & Hwithout).
    + vm_compute. reflexivity.
    + vm_compute. reflexivity.
    + exists stats, w'. split; [exact Hrun|].
      split; [vm_compute; reflexivity|].
      split; [exact Hused | exact Hwithout].
Defined.

(** Six results that name four files, none of which can be read: the
    heuristic counts four files, not the six results nor the five
    values of the key. *)
Lemma search_code_with_stats_heuristic_witness :
  exists stats w',
    Searcher.search_code_with_stats TokenCounter.CharEstimator
      "palindrome" Sim.chroma 6 SimVariants.world_scattered
      = (Py.Return (SimVariants.scattered_results, stats), w')
    /\ Spec.distinct_paths SimVariants.scattered_results
       = ["b.py"; "a.py"; "c.py"; "d.py"]
    /\ TokenCounter.tokens_without_search stats = 2000.
Proof.
  pose (w' := Searcher.mk_world
                (Sim.mk_state {[ Sim.chroma := SimVariants.scattered_results ]}
                   ∅ true (Some Sim.chroma) 1) []).
  destruct (search_code_with_stats_heuristic TokenCounter.CharEstimator
              "palindrome" Sim.chroma 6 SimVariants.world_scattered w'
              SimVariants.scattered_results)
    as (_ & Hreturns & _).
  - vm_compute. reflexivity.
  - discriminate.
  - vm_compute. reflexivity.
  - destruct (Hreturns 18) as (stats & Hrun & Hwithout);
      [vm_compute; reflexivity|].
    exists stats, w'. split; [exact Hrun|].
    split; [vm_compute; reflexivity|].
    rewrite Hwithout. vm_compute. reflexivity.
Defined.

(** ** The estimator on short texts *)

(** C10. Under the character estimator every non-empty text shorter than
    four characters counts [0] tokens; so [search_code_with_stats] can
    report [tokens_used = 0] although the results carry non-empty code. *)
Theorem estimator_short_text_counts_zero :
  (forall text, text <> EmptyString -> Py.len text < 4 ->
     TokenCounter.count_tokens TokenCounter.CharEstimator text = Py.Return 0)
  /\ exists (w w' : Searcher.World Sim.State) query persist_path top_k rs stats,
       Searcher.search_code_with_stats TokenCounter.CharEstimator
         query persist_path top_k w = (Py.Return (rs, stats), w')
       /\ TokenCounter.tokens_used stats = 0
       /\ Exists (fun r => Searcher.get_code r <> EmptyString) rs.
Proof.
  split.
  - intros text _ Hlen. rewrite count_tokens_estimator. f_equal.
    apply Z.div_small. pose proof (len_nonneg text). lia.
  - exists Sim.world_tiny,
      (Searcher.mk_world
         (Sim.mk_state {[ Sim.chroma := [Sim.snippet "t" "t.py" "x=1"] ]}
            ∅ true (Some Sim.chroma) 1) []),
      "tiny", Sim.chroma, 5, [Sim.snippet "t" "t.py" "x=1"],
      (TokenCounter.mk_stats 0 1500 1500 Dyadic.hundred).
    split; [vm_compute; reflexivity|].
    split; [reflexivity|].
    constructor. discriminate.
Qed.

Lemma estimator_short_text_counts_zero_witness :
  "x=1" <> EmptyString /\ Py.len "x=1" < 4
  /\ TokenCounter.count_tokens TokenCounter.CharEstimator "x=1" = Py.Return 0.
Proof.
  assert (Hne : "x=1" <> EmptyString) by discriminate.
  assert (Hlen : Py.len "x=1" < 4) by (vm_compute; reflexivity).
  split; [exact Hne|]. split; [exact Hlen|].
  exact (proj1 estimator_short_text_counts_zero "x=1" Hne Hlen).
Defined.

(** * Further properties of the code *)

(** ** [search_code]: results and diagnostics *)

Section SearchCodeMore.
Import Py TokenCounter Searcher.
Context {S V : Type} `{Collaborators S V}.

(** What the handler leaves: the empty list after one more line, or the
    exception of the write and nothing printed. *)
Lemma handled_output (w : World S) s e :
  exists o w1,
    handled w s e = (o, w1)
    /\ match o with
       | Return rs =>
           rs = [] /\ stdout w1 = (stdout w ++ ["Search error: " +:+ exn_str e])%list
       | Raise e' =>
           stdout w1 = stdout w
           /\ stdout_write (ext w1) ("Search error: " +:+ exn_str e) = Raise e'
       end.
Proof.
  unfold handled, after_error, diagnostic.
  destruct (stdout_write s _) as [u|e'] eqn:Hprint; do 2 eexists;
    (split; [reflexivity|]); cbn [ext stdout]; auto.
Qed.

(** When every write to the standard output succeeds, [search_code]
    returns. *)
Lemma search_code_returns query persist_path top_k (w : World S) :
  (forall s line, stdout_write s line = Return tt) ->
  exists rs w1, search_code query persist_path top_k w = (Return rs, w1).
Proof.
  intros Hopen. rewrite search_code_cases. unfold handled.
  destruct (init_db persist_path (ext w)) as [[u|e] s1];
    [|rewrite Hopen; eauto].
  destruct (embed_query query s1) as [[v|e] s2]; [|rewrite Hopen; eauto].
  destruct (db_search v top_k s2) as [[rs|e] s3]; [|rewrite Hopen]; eauto.
Qed.

(** X1. When the three collaborator calls succeed, [search_code] returns
    the list the index search produced, unchanged and in its order,
    prints nothing, and leaves the outside world as the three calls left
    it, the search having run on the state after the embedding, and the
    embedding on the state after the initialisation. *)
Theorem search_code_success (query persist_path : string) (top_k : Z)
    (w : World S) u s1 v s2 rs s3 :
  init_db persist_path (ext w) = (Return u, s1) ->
  embed_query query s1 = (Return v, s2) ->
  db_search v top_k s2 = (Return rs, s3) ->
  search_code query persist_path top_k w = (Return rs, mk_world s3 (stdout w)).
Proof.
  intros Hinit Hembed Hsearch.
  rewrite search_code_cases, Hinit, Hembed, Hsearch. reflexivity.
Qed.

(** X2. [search_code] keeps what was printed before and adds at most
    one line; it adds a line only together with the empty result, so a
    non-empty result is never accompanied by a diagnostic. It raises
    only when the write of the diagnostic raises, with that exception
    and with nothing printed. *)
Theorem search_code_output (query persist_path : string) (top_k : Z)
    (w : World S) :
  exists o w1,
    search_code query persist_path top_k w = (o, w1)
    /\ match o with
       | Return rs =>
           (stdout w1 = stdout w
            \/ (rs = [] /\ exists e,
                  stdout w1 = (stdout w ++ ["Search error: " +:+ exn_str e])%list))
           /\ (rs <> [] -> stdout w1 = stdout w)
       | Raise e' =>
           stdout w1 = stdout w
           /\ exists e, stdout_write (ext w1) ("Search error: " +:+ exn_str e)
                        = Raise e'
       end.
Proof.
  assert (Hhandled : forall s e, exists o w1,
            handled w s e = (o, w1)
            /\ match o with
               | Return rs =>
                   (stdout w1 = stdout w
                    \/ (rs = [] /\ exists e,
                          stdout w1
                          = (stdout w ++ ["Search error: " +:+ exn_str e])%list))
                   /\ (rs <> [] -> stdout w1 = stdout w)
               | Raise e' =>
                   stdout w1 = stdout w
                   /\ exists e, stdout_write (ext w1) ("Search error: " +:+ exn_str e)
                                = Raise e'
               end).
  { intros s e. destruct (handled_output w s e) as (o & w1 & Hrun & Hout).
    exists o, w1. split; [exact Hrun|].
    destruct o as [rs|e'].
    - destruct Hout as [-> Hline]. split; [right; eauto | congruence].
    - destruct Hout as [Hsame Hprint]. eauto. }
  rewrite search_code_cases.
  destruct (init_db persist_path (ext w)) as [[u|e] s1]; [|apply Hhandled].
  destruct (embed_query query s1) as [[v|e] s2]; [|apply Hhandled].
  destruct (db_search v top_k s2) as [[rs|e] s3]; [|apply Hhandled].
  do 2 eexists. split; [reflexivity|]. split; [left; reflexivity | reflexivity].
Qed.

(** X3. When the statistics dict lacks the [total_functions] key, the
    [KeyError] of the subscript is swallowed and [is_indexed] returns
    [false]. *)
Theorem is_indexed_missing_key (persist_path : string) (w : World S)
    u s1 stats s2 :
  os_path_exists persist_path (ext w) = true ->
  init_db persist_path (ext w) = (Return u, s1) ->
  get_stats s1 = (Return stats, s2) ->
  stats !! "total_functions" = None ->
  is_indexed persist_path w = (Return false, mk_world s2 (stdout w)).
Proof.
  intros Hexists Hinit Hstats Hkey.
  rewrite is_indexed_cases, Hexists, Hinit, Hstats, Hkey. reflexivity.
Qed.

(** X4. [is_indexed] answers [true] only when the path exists, the
    initialisation and the statistics call both returned, and the
    reported total is positive; whatever it answers, it prints nothing. *)
Theorem is_indexed_true_only_if (persist_path : string) (w w' : World S)
    (b : bool) :
  is_indexed persist_path w = (Return b, w') ->
  stdout w' = stdout w
  /\ (b = true ->
      os_path_exists persist_path (ext w) = true
      /\ exists u s1 stats s2 total,
           init_db persist_path (ext w) = (Return u, s1)
           /\ get_stats s1 = (Return stats, s2)
           /\ stats !! "total_functions" = Some total
           /\ 0 < total
           /\ w' = mk_world s2 (stdout w)).
Proof.
  rewrite is_indexed_cases.
  destruct (os_path_exists persist_path (ext w)) eqn:Hexists.
  2:{ intros [= <- <-]. split; [reflexivity | discriminate]. }
  destruct (init_db persist_path (ext w)) as [[u|e] s1] eqn:Hinit.
  2:{ intros [= <- <-]. split; [reflexivity | discriminate]. }
  destruct (get_stats s1) as [[stats|e] s2] eqn:Hstats.
  2:{ intros [= <- <-]. split; [reflexivity | discriminate]. }
  destruct (stats !! "total_functions") as [total|] eqn:Hkey.
  2:{ intros [= <- <-]. split; [reflexivity | discriminate]. }
  intros [= <- <-]. split; [reflexivity|].
  intros Htrue. apply Z.ltb_lt in Htrue.
  split; [reflexivity|]. exists u, s1, stats, s2, total. auto.
Qed.

End SearchCodeMore.

Lemma search_code_success_witness :
  Searcher.search_code "palindrome" Sim.chroma 2 Sim.world_ok
  = (Py.Return (take 2 Sim.sample_results),
     Searcher.mk_world
       (Sim.mk_state {[ Sim.chroma := Sim.sample_results ]}
          {[ "a.py" := Sim.a_py ]} true (Some Sim.chroma) 1) []).
Proof.
  pose (s1 := Sim.mk_state {[ Sim.chroma := Sim.sample_results ]}
                {[ "a.py" := Sim.a_py ]} true (Some Sim.chroma) 1).
  apply (search_code_success "palindrome" Sim.chroma 2 Sim.world_ok
           tt s1 10 s1 (take 2 Sim.sample_results) s1);
    vm_compute; reflexivity.
Defined.

Lemma is_indexed_missing_key_witness :
  @Searcher.is_indexed _ _ SimVariants.bare_stats Sim.chroma Sim.world_ok
  = (Py.Return false,
     Searcher.mk_world
       (Sim.mk_state {[ Sim.chroma := Sim.sample_results ]}
          {[ "a.py" := Sim.a_py ]} true (Some Sim.chroma) 1) []).
Proof.
  pose (s1 := Sim.mk_state {[ Sim.chroma := Sim.sample_results ]}
                {[ "a.py" := Sim.a_py ]} true (Some Sim.chroma) 1).
  apply (@is_indexed_missing_key _ _ SimVariants.bare_stats
           Sim.chroma Sim.world_ok tt s1 ∅ s1);
    vm_compute; reflexivity.
Defined.

Lemma is_indexed_true_only_if_witness :
  Searcher.os_path_exists Sim.chroma (Searcher.ext Sim.world_ok) = true
  /\ exists (stats : gmap string Z) total,
       stats !! "total_functions" = Some total /\ 0 < total.
Proof.
  pose (s1 := Sim.mk_state {[ Sim.chroma := Sim.sample_results ]}
                {[ "a.py" := Sim.a_py ]} true (Some Sim.chroma) 1).
  destruct (is_indexed_true_only_if Sim.chroma Sim.world_ok
              (Searcher.mk_world s1 []) true) as [_ Honly];
    [vm_compute; reflexivity|].
  destruct (Honly eq_refl) as (Hexists & u & s1' & stats & s2 & total
                               & Hinit & Hstats & Hkey & Hpos & Hw).
  split; [exact Hexists|]. exists stats, total. split; assumption.
Defined.

(** ** [estimate_file_tokens] and [search_code_with_stats]: failure and invariants *)

Section StatsMore.
Import Py TokenCounter Searcher Dyadic.

(** What the except clause of [estimate_file_tokens] lets through. *)
Lemma except_clause_escapes (e0 e : exn) :
  (if matches e0 [IOError; OSError; UnicodeDecodeError]
   then Return 0 else Raise e0) = (Raise e : Outcome Z)
  <-> e0 = e /\ isinstance e OSError = false
      /\ isinstance e UnicodeDecodeError = false.
Proof.
  unfold matches, IOError. cbn [existsb].
  destruct (isinstance e0 OSError) eqn:Hos;
    destruct (isinstance e0 UnicodeDecodeError) eqn:Hud; cbn [orb]; split;
    try discriminate; try (intros [= <-]; auto);
    intros (<- & Hos' & Hud'); congruence.
Qed.

(** X5. An exception leaves [estimate_file_tokens] exactly when the read
    or the token count of the contents raised it and it is neither an
    [OSError] nor a [UnicodeDecodeError]; an [OSError] or
    [UnicodeDecodeError] never escapes, and a returned count is never
    negative. *)
Theorem estimate_file_tokens_escapes (b : Backend)
    (fs : string -> Outcome string) (path : string) :
  (forall e, estimate_file_tokens b fs path = Raise e <->
             (open_and_read fs path = Raise e
              \/ exists content, open_and_read fs path = Return content
                                 /\ count_tokens b content = Raise e)
             /\ isinstance e OSError = false
             /\ isinstance e UnicodeDecodeError = false)
  /\ (forall n, estimate_file_tokens b fs path = Return n -> 0 <= n).
Proof.
  split; [|intros n; apply estimate_file_tokens_nonneg].
  intros e. unfold estimate_file_tokens, try_except.
  destruct (open_and_read fs path) as [content|e0]; cbn [obind].
  - destruct (count_tokens b content) as [n|e1] eqn:Hc.
    + split; [discriminate|].
      intros ([Hread | (c & [= <-] & Hcount)] & _); [discriminate | congruence].
    + rewrite except_clause_escapes. split.
      * intros (<- & Hos & Hud). split; [|auto]. right. eauto.
      * intros ([Hread | (c & [= <-] & Hcount)] & Hos & Hud); [discriminate|].
        split; [congruence | auto].
  - rewrite except_clause_escapes. split.
    + intros (<- & Hos & Hud). auto.
    + intros ([[= <-] | (c & Hread & _)] & Hos & Hud); [auto | discriminate].
Qed.

Context {S V : Type} `{Collaborators S V}.
Variable backend : Backend.

(** What a returned pair tells about the run. *)
Lemma search_code_with_stats_inv query persist_path top_k w rs st w' :
  search_code_with_stats backend query persist_path top_k w = (Return (rs, st), w') ->
  search_code query persist_path top_k w = (Return rs, w')
  /\ ((rs = [] /\ st = zero_stats)
      \/ (rs <> [] /\ exists used counts,
            count_tokens backend (join newline (map get_code rs)) = Return used
            /\ map_outcome (estimate_file_tokens backend (open_read (ext w')))
                 (file_paths_of rs) = Return counts
            /\ calculate_savings used
                 (if Py.sum counts =? 0
                  then 500 * Z.max 3 (Z.of_nat (length (file_paths_of rs)))
                  else Py.sum counts) = Return st)).
Proof.
  destruct (search_code query persist_path top_k w) as [[rs0|e] w1] eqn:Hs.
  2:{ rewrite (search_code_with_stats_search_raises _ _ _ _ _ _ _ Hs).
      discriminate. }
  rewrite (search_code_with_stats_run _ _ _ _ _ _ _ Hs).
  destruct rs0 as [|r rs0'].
  - intros [= <- <- <-]. split; [reflexivity|]. left. split; reflexivity.
  - destruct (count_tokens _ _) as [used|e] eqn:Hused; cbn [obind];
      [|discriminate].
    destruct (map_outcome _ _) as [counts|e] eqn:Hmap; cbn [obind];
      [|discriminate].
    destruct (calculate_savings _ _) as [st0|e] eqn:Hcalc; cbn [obind];
      [|discriminate].
    intros [= <- <- <-]. split; [reflexivity|]. right.
    split; [discriminate|]. exists used, counts. auto.
Qed.

(** X6. [search_code_with_stats] hands on the results of [search_code]
    unchanged and leaves the world as [search_code] left it; it raises
    exactly when the results are non-empty and the token count of their
    code or the estimate of one of their files raises, and the exception
    it raises is one of these. *)
Theorem search_code_with_stats_failure (query persist_path : string)
    (top_k : Z) (w w1 : World S) (rs : list SearchResult) :
  search_code query persist_path top_k w = (Return rs, w1) ->
  let fs := open_read (ext w1) in
  let raised e :=
    count_tokens backend (join newline (map get_code rs)) = Raise e
    \/ exists fp, fp ∈ truthy_paths rs
                  /\ estimate_file_tokens backend fs fp = Raise e in
  ((exists st, search_code_with_stats backend query persist_path top_k w
                = (Return (rs, st), w1))
   \/ (exists e, search_code_with_stats backend query persist_path top_k w
                  = (Raise e, w1) /\ rs <> [] /\ raised e))
  /\ (rs <> [] -> (exists e, raised e) ->
      exists e, search_code_with_stats backend query persist_path top_k w
                = (Raise e, w1)).
Proof.
  intros Hs fs raised.
  destruct rs as [|r rs'].
  { split; [|congruence]. left. eexists.
    rewrite (search_code_with_stats_run _ _ _ _ _ _ _ Hs). reflexivity. }
  set (rs := r :: rs') in *.
  destruct (count_tokens backend (join newline (map get_code rs)))
    as [used|e] eqn:Hused.
  2:{ assert (Hrun : search_code_with_stats backend query persist_path top_k w
                     = (Raise e, w1)).
      { rewrite (search_code_with_stats_run _ _ _ _ _ _ _ Hs).
        fold rs. rewrite Hused. reflexivity. }
      split; [|eauto]. right. exists e. split; [exact Hrun|].
      split; [discriminate|]. left. reflexivity. }
  destruct (Spec.sum_of_outcomes (estimate_file_tokens backend fs)
              (Spec.distinct_paths rs)) as [total|e] eqn:Htotal.
  - destruct (search_code_with_stats_returns _ _ _ _ _ _ _ _ _ Hs ltac:(discriminate)
                Hused Htotal) as [pct Hrun].
    split; [left; eauto|].
    intros _ (e & [Hcount | (fp & Hin & Hraise)]); [congruence|]. exfalso.
    apply sum_of_outcomes_returns in Htotal as (counts & Hcounts & _).
    pose proof (map_outcome_spec (estimate_file_tokens backend fs)
                  (Spec.distinct_paths rs)) as Hspec.
    rewrite Hcounts in Hspec.
    apply truthy_paths_spec, distinct_paths_spec in Hin.
    destruct (Forall2_elem_l _ _ _ _ Hspec Hin) as [n Hn]. congruence.
  - assert (Hsome : exists fp e0, fp ∈ truthy_paths rs
                      /\ estimate_file_tokens backend fs fp = Raise e0).
    { pose proof (map_outcome_spec (estimate_file_tokens backend fs)
                    (Spec.distinct_paths rs)) as Hspec.
      rewrite <- sum_map_outcome in Htotal.
      destruct (map_outcome _ _) as [counts|e0]; cbn [obind] in Htotal;
        [discriminate|].
      destruct Hspec as (fp & Hin & Hraise). exists fp, e0.
      split; [|exact Hraise].
      apply truthy_paths_spec, distinct_paths_spec. exact Hin. }
    destruct (search_code_with_stats_estimate_raises _ _ _ _ _ _ _ _ Hs Hused Hsome)
      as (fp & e0 & Hin & Hraise & Hrun).
    split; [|eauto]. right. exists e0. split; [exact Hrun|].
    split; [discriminate|]. right. eauto.
Qed.

Lemma calculate_savings_fields used without st :
  calculate_savings used without = Return st ->
  tokens_used st = used
  /\ tokens_without_search st = without
  /\ tokens_saved st = Z.max 0 (without - used).
Proof.
  unfold calculate_savings.
  destruct (if 0 <? without then _ else _) as [pct|e]; cbn [obind];
    [|discriminate].
  intros [= <-]. repeat split.
Qed.

(** X7. Every pair [search_code_with_stats] returns carries statistics
    that keep the invariants of the record: no field is negative,
    [tokens_saved] is [max(0, tokens_without_search - tokens_used)] and
    does not exceed [tokens_without_search], [percent_saved] lies in
    [[0.0, 100.0]], and [tokens_without_search] is [0] exactly when the
    result list is empty. *)
Theorem search_code_with_stats_invariants (query persist_path : string)
    (top_k : Z) (w w' : World S) (rs : list SearchResult) (st : TokenStats) :
  search_code_with_stats backend query persist_path top_k w
    = (Return (rs, st), w') ->
  0 <= tokens_used st
  /\ 0 <= tokens_saved st <= tokens_without_search st
  /\ tokens_saved st = Z.max 0 (tokens_without_search st - tokens_used st)
  /\ in_percent_range (percent_saved st)
  /\ (tokens_without_search st = 0 <-> rs = []).
Proof.
  intros Hrun.
  destruct (search_code_with_stats_inv _ _ _ _ _ _ _ Hrun)
    as [_ [[-> ->] | (Hne & tu & counts & Hused & Hmap & Hcalc)]].
  - cbn. repeat split; try lia; reflexivity.
  - pose proof (counts_nonneg _ _ _ _ Hmap) as Hsum.
    set (tws := if Py.sum counts =? 0
                then 500 * Z.max 3 (Z.of_nat (length (file_paths_of rs)))
                else Py.sum counts) in *.
    assert (Htu : 0 <= tu) by (eapply count_tokens_nonneg; eassumption).
    assert (Htws : 0 < tws)
      by (unfold tws; destruct (Z.eqb_spec (Py.sum counts) 0); lia).
    destruct (calculate_savings_positive tu tws Htu Htws)
      as (n & _ & Hret & _ & Hrange).
    rewrite Hret in Hcalc. injection Hcalc as <-.
    cbn [tokens_used tokens_saved tokens_without_search percent_saved].
    repeat split; try lia; try apply Hrange.
    intros ->. congruence.
Qed.

(** X9. [tokens_without_search] depends on the results only through the
    set of their non-empty file paths: two runs whose results name the
    same files, read alike, report the same value, whatever the order
    of the results and however many of them share a file. *)
Theorem tokens_without_search_by_path_set
    (query_a persist_path_a query_b persist_path_b : string) (top_k_a top_k_b : Z)
    (w_a w_a' w_b w_b' : World S) (rs_a rs_b : list SearchResult)
    (st_a st_b : TokenStats) :
  search_code_with_stats backend query_a persist_path_a top_k_a w_a
    = (Return (rs_a, st_a), w_a') ->
  search_code_with_stats backend query_b persist_path_b top_k_b w_b
    = (Return (rs_b, st_b), w_b') ->
  rs_a <> [] -> rs_b <> [] ->
  (forall fp, fp ∈ truthy_paths rs_a <-> fp ∈ truthy_paths rs_b) ->
  (forall fp, fp ∈ truthy_paths rs_a ->
     open_read (ext w_a') fp = open_read (ext w_b') fp) ->
  tokens_without_search st_a = tokens_without_search st_b.
Proof.
  intros Hrun_a Hrun_b Hne_a Hne_b Hset Hfs.
  destruct (search_code_with_stats_inv _ _ _ _ _ _ _ Hrun_a)
    as [_ [[-> _] | (_ & used_a & counts_a & _ & Hmap_a & Hcalc_a)]];
    [congruence|].
  destruct (search_code_with_stats_inv _ _ _ _ _ _ _ Hrun_b)
    as [_ [[-> _] | (_ & used_b & counts_b & _ & Hmap_b & Hcalc_b)]];
    [congruence|].
  assert (Hpaths : file_paths_of rs_a = file_paths_of rs_b).
  { unfold file_paths_of. f_equal. apply set_eq. intros fp.
    rewrite !elem_of_list_to_set. apply Hset. }
  rewrite <- Hpaths in Hmap_b, Hcalc_b.
  rewrite (map_outcome_ext _ (estimate_file_tokens backend (open_read (ext w_b')))) in Hmap_a.
  2:{ intros fp Hin. apply elem_of_file_paths_of in Hin.
      unfold estimate_file_tokens, open_and_read.
      rewrite (Hfs fp Hin). reflexivity. }
  rewrite Hmap_a in Hmap_b. injection Hmap_b as <-.
  apply calculate_savings_fields in Hcalc_a as (_ & -> & _).
  apply calculate_savings_fields in Hcalc_b as (_ & -> & _).
  reflexivity.
Qed.

End StatsMore.

Lemma len_join sep parts :
  parts <> [] ->
  Py.len (Py.join sep parts)
  = Spec.sum_over Py.len parts + Py.len sep * (Z.of_nat (length parts) - 1).
Proof.
  induction parts as [|t parts IH]; [congruence|]. intros _.
  destruct parts as [|t' parts].
  - cbn. lia.
  - unfold Py.join in *.
    change (String.concat sep (t :: t' :: parts))
      with (t +:+ sep +:+ String.concat sep (t' :: parts)).
    rewrite !len_append, IH by discriminate.
    cbn [Spec.sum_over length].
    rewrite !Nat2Z.inj_succ. lia.
Qed.

(** X8. Under the character estimator the separators count: for [n >= 1]
    results [tokens_used] is the floor of a quarter of the total code
    length plus [n - 1] newlines, which is never less than what
    [count_tokens_batch] gives for the same snippets. *)
Theorem tokens_used_counts_separators (S V : Type) (H : Searcher.Collaborators S V)
    (query persist_path : string) (top_k : Z) (w w' : Searcher.World S)
    (rs : list Searcher.SearchResult) (st : TokenCounter.TokenStats) :
  Searcher.search_code_with_stats TokenCounter.CharEstimator
    query persist_path top_k w = (Py.Return (rs, st), w') ->
  rs <> [] ->
  TokenCounter.tokens_used st
    = (Spec.sum_over (fun r => Py.len (Searcher.get_code r)) rs
       + (Z.of_nat (length rs) - 1)) / 4
  /\ exists batch,
       TokenCounter.count_tokens_batch TokenCounter.CharEstimator
         (map Searcher.get_code rs) = Py.Return batch
       /\ batch <= TokenCounter.tokens_used st.
Proof.
  intros Hrun Hne.
  destruct (search_code_with_stats_inv _ _ _ _ _ _ _ _ Hrun)
    as [_ [[-> _] | (_ & used & counts & Hused & _ & Hcalc)]]; [congruence|].
  apply calculate_savings_fields in Hcalc as (-> & _ & _).
  rewrite count_tokens_estimator in Hused. injection Hused as <-.
  rewrite len_join by (destruct rs; [congruence | discriminate]).
  change (Py.len Py.newline) with 1. rewrite length_map, Z.mul_1_l.
  assert (Hsum : Spec.sum_over Py.len (map Searcher.get_code rs)
                 = Spec.sum_over (fun r => Py.len (Searcher.get_code r)) rs).
  { clear. induction rs as [|r rs IH]; [reflexivity|].
    cbn [map Spec.sum_over]. rewrite IH. reflexivity. }
  rewrite Hsum. split; [reflexivity|].
  rewrite count_tokens_batch_estimator. eexists. split; [reflexivity|].
  pose proof (estimator_batch_remainders (map Searcher.get_code rs)) as Hrem.
  pose proof (remainders_bound (map Searcher.get_code rs)) as Hbound.
  unfold Spec.concatenation in Hrem. rewrite len_join_empty in Hrem.
  rewrite sum_map_sum_over, Hsum in Hrem.
  assert (1 <= Z.of_nat (length rs)) by (destruct rs; [congruence | cbn; lia]).
  apply Z.div_le_lower_bound; lia.
Qed.

(** Under a tokenizer, a result whose code quotes a special token makes
    the token count of line 71 raise before any file is read. *)
Lemma search_code_with_stats_failure_witness :
  exists e w1,
    Searcher.search_code_with_stats SimVariants.tiktoken
      "eot" Sim.chroma 5 SimVariants.world_special
    = (Py.Raise e, w1).
Proof.
  pose (rs := [Sim.snippet "eot" "tok.py" SimVariants.tok_py]).
  pose (w1 := Searcher.mk_world
                (Sim.mk_state {[ Sim.chroma := rs ]} ∅ true (Some Sim.chroma) 1) []).
  destruct (search_code_with_stats_failure SimVariants.tiktoken
              "eot" Sim.chroma 5 SimVariants.world_special w1 rs)
    as [_ Hraises]; [vm_compute; reflexivity|].
  destruct Hraises as [e He].
  - discriminate.
  - exists SimVariants.disallowed. left. vm_compute. reflexivity.
  - exists e, w1. exact He.
Defined.

Lemma search_code_with_stats_invariants_witness :
  exists st w',
    Searcher.search_code_with_stats TokenCounter.CharEstimator
      "palindrome" Sim.chroma 5 Sim.world_ok = (Py.Return (Sim.sample_results, st), w')
    /\ 0 <= TokenCounter.tokens_saved st <= TokenCounter.tokens_without_search st
    /\ Dyadic.in_percent_range (TokenCounter.percent_saved st).
Proof.
  pose (st := TokenCounter.mk_stats 17 25 8 (Dyadic.tenth 320)).
  pose (w' := Searcher.mk_world
                (Sim.mk_state {[ Sim.chroma := Sim.sample_results ]}
                   {[ "a.py" := Sim.a_py ]} true (Some Sim.chroma) 1) []).
  assert (Hrun : Searcher.search_code_with_stats TokenCounter.CharEstimator
                   "palindrome" Sim.chroma 5 Sim.world_ok
                 = (Py.Return (Sim.sample_results, st), w'))
    by (vm_compute; reflexivity).
  destruct (search_code_with_stats_invariants _ _ _ _ _ _ _ _ Hrun)
    as (_ & Hsaved & _ & Hrange & _).
  exists st, w'. auto.
Defined.

Lemma tokens_used_counts_separators_witness :
  exists st w',
    Searcher.search_code_with_stats TokenCounter.CharEstimator
      "palindrome" Sim.chroma 5 Sim.world_ok = (Py.Return (Sim.sample_results, st), w')
    /\ TokenCounter.tokens_used st = (66 + (4 - 1)) / 4
    /\ TokenCounter.count_tokens_batch TokenCounter.CharEstimator
         (map Searcher.get_code Sim.sample_results) = Py.Return 15.
Proof.
  pose (st := TokenCounter.mk_stats 17 25 8 (Dyadic.tenth 320)).
  pose (w' := Searcher.mk_world
                (Sim.mk_state {[ Sim.chroma := Sim.sample_results ]}
                   {[ "a.py" := Sim.a_py ]} true (Some Sim.chroma) 1) []).
  assert (Hrun : Searcher.search_code_with_stats TokenCounter.CharEstimator
                   "palindrome" Sim.chroma 5 Sim.world_ok
                 = (Py.Return (Sim.sample_results, st), w'))
    by (vm_compute; reflexivity).
  destruct (tokens_used_counts_separators _ _ _ _ _ _ _ _ _ _ Hrun)
    as [Hused _]; [discriminate|].
  exists st, w'. split; [exact Hrun|]. split; [exact Hused|].
  vm_compute. reflexivity.
Defined.

Lemma tokens_without_search_by_path_set_witness :
  exists st_a st_b w_a w_b,
    Searcher.search_code_with_stats TokenCounter.CharEstimator
      "palindrome" Sim.chroma 5 Sim.world_ok
      = (Py.Return (Sim.sample_results, st_a), w_a)
    /\ Searcher.search_code_with_stats TokenCounter.CharEstimator
         "gone" Sim.chroma 5 SimVariants.world_shuffled
         = (Py.Return (SimVariants.shuffled_results, st_b), w_b)
    /\ TokenCounter.tokens_without_search st_a
        = TokenCounter.tokens_without_search st_b.
Proof.
  pose (st_a := TokenCounter.mk_stats 17 25 8 (Dyadic.tenth 320)).
  pose (w_a := Searcher.mk_world
                 (Sim.mk_state {[ Sim.chroma := Sim.sample_results ]}
                    {[ "a.py" := Sim.a_py ]} true (Some Sim.chroma) 1) []).
  pose (st_b := TokenCounter.mk_stats 7 25 18 (Dyadic.tenth 720)).
  pose (w_b := Searcher.mk_world
                 (Sim.mk_state {[ Sim.chroma := SimVariants.shuffled_results ]}
                    {[ "a.py" := Sim.a_py ]} true (Some Sim.chroma) 1) []).
  assert (Hrun_a : Searcher.search_code_with_stats TokenCounter.CharEstimator
                     "palindrome" Sim.chroma 5 Sim.world_ok
                   = (Py.Return (Sim.sample_results, st_a), w_a))
    by (vm_compute; reflexivity).
  assert (Hrun_b : Searcher.search_code_with_stats TokenCounter.CharEstimator
                     "gone" Sim.chroma 5 SimVariants.world_shuffled
                   = (Py.Return (SimVariants.shuffled_results, st_b), w_b))
    by (vm_compute; reflexivity).
  exists st_a, st_b, w_a, w_b. split; [exact Hrun_a|]. split; [exact Hrun_b|].
  refine (tokens_without_search_by_path_set TokenCounter.CharEstimator
            _ _ _ _ _ _ _ _ _ _ _ _ _ _ Hrun_a Hrun_b _ _ _ _).
  - discriminate.
  - discriminate.
  - intros fp. cbn. rewrite !elem_of_cons, !elem_of_nil. tauto.
  - intros fp _. reflexivity.
Defined.

(** ** What is caught and what is counted *)

Section Caught.
Import Py TokenCounter Searcher.

(** X16. The outcomes of [count_tokens]: under the character estimator
    it returns the floor of a quarter of the length, for every text; on
    the empty text it returns [0] whatever the backend; a count it
    returns is never negative; with a tokenizer the count of a non-empty
    text is the number of tokens [encode] returns; and it raises only
    with a tokenizer, on a non-empty text, what [encode] raised. *)
Theorem count_tokens_outcomes (b : Backend) (text : string) :
  count_tokens CharEstimator text = Return (len text / 4)
  /\ count_tokens b EmptyString = Return 0
  /\ (forall n, count_tokens b text = Return n -> 0 <= n)
  /\ (forall encode tokens,
        b = Tiktoken encode -> text <> EmptyString ->
        encode text = Return tokens ->
        count_tokens b text = Return (Z.of_nat (length tokens)))
  /\ (forall e, count_tokens b text = Raise e ->
        exists encode,
          b = Tiktoken encode /\ text <> EmptyString /\ encode text = Raise e).
Proof.
  split; [apply count_tokens_estimator|].
  split; [apply count_tokens_empty|].
  split; [intros n; apply count_tokens_nonneg|].
  split; [|intros e; apply count_tokens_raises].
  intros encode tokens -> Hne Hencode.
  rewrite count_tokens_tiktoken by exact Hne. rewrite Hencode. reflexivity.
Qed.

(** X17. [estimate_file_tokens] on a path without a NUL character: a
    read that fails with an [OSError] (a missing file, a directory, a
    file without read permission) or with a [UnicodeDecodeError] gives
    [0]; a read that succeeds gives the token count of the contents,
    which under the character estimator is the floor of a quarter of
    their length. *)
Theorem estimate_file_tokens_best_effort (b : Backend)
    (fs : string -> Outcome string) (path : string) :
  has_nul path = false ->
  (forall e, fs path = Raise e ->
     isinstance e OSError = true \/ isinstance e UnicodeDecodeError = true ->
     estimate_file_tokens b fs path = Return 0)
  /\ (forall content n,
        fs path = Return content -> count_tokens b content = Return n ->
        estimate_file_tokens b fs path = Return n)
  /\ (forall content,
        fs path = Return content ->
        estimate_file_tokens CharEstimator fs path = Return (len content / 4)).
Proof.
  intros Hnul. split; [|split].
  - intros e Hread Hclass.
    apply (estimate_file_tokens_swallows b fs path e).
    + rewrite open_and_read_plain by exact Hnul. exact Hread.
    + unfold matches, IOError. cbn [existsb].
      destruct Hclass as [-> | ->]; [reflexivity|].
      rewrite !orb_true_r. reflexivity.
  - intros content n Hread Hcount.
    rewrite (estimate_file_tokens_readable b fs path content)
      by (rewrite open_and_read_plain by exact Hnul; exact Hread).
    rewrite Hcount. reflexivity.
  - intros content Hread.
    rewrite (estimate_file_tokens_readable CharEstimator fs path content)
      by (rewrite open_and_read_plain by exact Hnul; exact Hread).
    rewrite count_tokens_estimator. reflexivity.
Qed.

Context {S V : Type} `{Collaborators S V}.

(** X18. When one of the three calls of [search_code] raises [e] and
    the diagnostic line can be written, the exception is caught:
    [search_code] returns the empty list, has printed the one line
    [Search error: ] followed by [str(e)], and leaves the outside world
    as the failing call left it, no later call being made. *)
Theorem search_code_catches (query persist_path : string) (top_k : Z)
    (w : World S) (e : exn) (s : S) :
  init_db persist_path (ext w) = (Raise e, s)
  \/ (exists u s1,
        init_db persist_path (ext w) = (Return u, s1)
        /\ embed_query query s1 = (Raise e, s))
  \/ (exists u s1 v s2,
        init_db persist_path (ext w) = (Return u, s1)
        /\ embed_query query s1 = (Return v, s2)
        /\ db_search v top_k s2 = (Raise e, s)) ->
  stdout_write s ("Search error: " +:+ exn_str e) = Return tt ->
  search_code query persist_path top_k w
  = (Return [], mk_world s (stdout w ++ ["Search error: " +:+ exn_str e])).
Proof.
  intros Hstage Hprint. rewrite search_code_cases.
  destruct Hstage as [-> | [(u & s1 & -> & ->) | (u & s1 & v & s2 & -> & -> & ->)]];
    eapply handled_returns; exact Hprint.
Qed.

End Caught.

Lemma count_tokens_outcomes_witness :
  TokenCounter.count_tokens TokenCounter.CharEstimator "def f(): pass"
  = Py.Return 3
  /\ TokenCounter.count_tokens SimVariants.tiktoken "def f(): pass"
     = Py.Return 13.
Proof.
  split.
  - exact (proj1 (count_tokens_outcomes TokenCounter.CharEstimator "def f(): pass")).
  - assert (Hne : "def f(): pass" <> EmptyString) by discriminate.
    exact (proj1 (proj2 (proj2 (proj2
             (count_tokens_outcomes SimVariants.tiktoken "def f(): pass"))))
             SimVariants.refusing_encode
             (map (fun c => Z.of_nat (nat_of_ascii c))
                (list_ascii_of_string "def f(): pass"))
             eq_refl Hne eq_refl).
Defined.

Lemma estimate_file_tokens_best_effort_witness :
  let fs := Searcher.open_read (Searcher.ext Sim.world_ok) in
  TokenCounter.estimate_file_tokens TokenCounter.CharEstimator fs "b.py"
  = Py.Return 0
  /\ TokenCounter.estimate_file_tokens TokenCounter.CharEstimator fs "a.py"
     = Py.Return 25.
Proof.
  cbv zeta. split.
  - apply (proj1 (estimate_file_tokens_best_effort TokenCounter.CharEstimator
                    (Searcher.open_read (Searcher.ext Sim.world_ok)) "b.py"
                    eq_refl)
             (Py.mk_exn Py.FileNotFoundError "b.py")).
    + reflexivity.
    + left. reflexivity.
  - apply (proj2 (proj2 (estimate_file_tokens_best_effort TokenCounter.CharEstimator
                           (Searcher.open_read (Searcher.ext Sim.world_ok)) "a.py"
                           eq_refl)) Sim.a_py).
    reflexivity.
Defined.

Lemma search_code_catches_witness :
  Searcher.search_code "palindrome" Sim.chroma 5 Sim.world_embedder_down
  = (Py.Return [],
     Searcher.mk_world
       (Sim.mk_state {[ Sim.chroma := Sim.sample_results ]} ∅ false
                     (Some Sim.chroma) 1)
       ["Search error: embedder unreachable"]).
Proof.
  apply (search_code_catches "palindrome" Sim.chroma 5 Sim.world_embedder_down
           (Py.mk_exn Py.ConnectionError "embedder unreachable")).
  - right. left. do 2 eexists. split; reflexivity.
  - reflexivity.
Defined.

(** ** [calculate_savings]: the two extremes *)

Section ExactFacts.
Import Py TokenCounter Dyadic.

Lemma dyadic_eq_iff a b e : (dyadic a e == dyadic b e)%Q <-> a = b.
Proof.
  split.
  - intros Heq. apply Z.le_antisymm; apply (dyadic_le_iff _ _ e);
      rewrite Heq; apply Qle_refl.
  - intros ->. reflexivity.
Qed.

(** A representable value given exactly is returned as it is. *)
Lemma binary_round_aux_exact mx ex M E :
  0 < mx -> 0 < M ->
  ex <= emax - prec ->
  fexp prec emax (Zdigits2 M + E) <= E ->
  Zdigits2 M + E <= emax ->
  (dyadic mx ex == dyadic M E)%Q ->
  exists m e,
    binary_round_aux prec emax false mx ex loc_Exact = S754_finite false m e
    /\ (dyadic (Zpos m) e == dyadic M E)%Q.
Proof.
  intros Hmx HM Hex HE Hmag Heq. unfold binary_round_aux.
  assert (Hdig : Zdigits2 mx + ex = Zdigits2 M + E).
  { apply Z.le_antisymm; apply dyadic_digits_mono; try assumption;
      rewrite Heq; apply Qle_refl. }
  pose proof (shr_fexp_spec mx ex loc_Exact ltac:(lia)) as S1. cbv zeta in S1.
  destruct (shr_fexp prec emax mx ex loc_Exact) as [y1 e1].
  destruct S1 as [Hy1 S1].
  set (r := round_nearest_even (shr_m y1) (loc_of_shr_record y1)).
  destruct (round_nearest_even_bounds (shr_m y1) (loc_of_shr_record y1))
    as [_ Hrex]. fold r in Hrex. rewrite loc_exact_iff in Hrex.
  rewrite fexp_eq in HE. change (emax - prec) with 971 in *.
  change emax with 1024 in Hmag.
  assert (Hr : (dyadic r e1 == dyadic M E)%Q /\ 0 < r /\ e1 <= 971
               /\ fexp prec emax (Zdigits2 M + E) <= e1).
  { rewrite fexp_eq.
    destruct S1 as [(Hn & -> & Hm1 & Hi1) | (Hn & -> & Hm1 & Hi1)].
    - rewrite Hrex by (apply Hi1; reflexivity). rewrite Hm1.
      rewrite fexp_eq, Hdig in Hn. repeat split; try assumption; lia.
    - rewrite fexp_eq, Hdig in *.
      set (n := Z.max (Zdigits2 M + E - 53) (-1074) - ex) in *.
      assert (H2n : 0 < 2 ^ n) by (apply Z.pow_pos_nonneg; lia).
      set (K := M * 2 ^ (E - (ex + n))).
      assert (HB : (dyadic M E == dyadic K (ex + n))%Q).
      { unfold K. rewrite dyadic_shift by lia.
        replace (ex + n + (E - (ex + n))) with E by lia. reflexivity. }
      assert (HmxK : mx = K * 2 ^ n).
      { apply (dyadic_eq_iff _ _ ex). rewrite dyadic_shift by lia.
        rewrite <- HB. exact Heq. }
      assert (Hmod : mx mod 2 ^ n = 0) by (rewrite HmxK; apply Z.mod_mul; lia).
      rewrite Hrex by (apply Hi1; split; [reflexivity | exact Hmod]).
      rewrite Hm1, HmxK, Z.div_mul by lia.
      assert (0 < K) by nia.
      repeat split; try lia. symmetry. exact HB. }
  destruct Hr as (Hval & Hrpos & He1 & Hf).
  assert (Hdig2 : Zdigits2 r + e1 = Zdigits2 M + E).
  { apply Z.le_antisymm; apply dyadic_digits_mono; try assumption;
      rewrite Hval; apply Qle_refl. }
  pose proof (shr_fexp_spec r e1 loc_Exact ltac:(lia)) as S2. cbv zeta in S2.
  destruct (shr_fexp prec emax r e1 loc_Exact) as [y2 e2].
  destruct S2 as [_ [(Hn & -> & Hm2 & _) | (Hn & _)]].
  2:{ rewrite Hdig2 in Hn. lia. }
  rewrite Hm2. destruct r as [|m|m]; try lia.
  replace (e1 <=? 971) with true by (symmetry; apply Z.leb_le; lia).
  exists m, e1. split; [reflexivity | exact Hval].
Qed.


(** A float holding exactly the value [M * 2^E]. *)
Lemma int_true_divide_self w :
  0 < w ->
  exists m e, int_true_divide w w = Return (S754_finite false m e)
              /\ (dyadic (Zpos m) e == dyadic 1 0)%Q.
Proof.
  intros Hw. unfold int_true_divide.
  replace (w =? 0) with false by (symmetry; apply Z.eqb_neq; lia).
  destruct w as [|pw|pw]; try lia.
  cbn [exact_int SFdiv xorb]. unfold SFdiv_core_binary.
  rewrite !Z.add_0_r, Z.sub_0_r, Z.sub_diag. rewrite fexp_eq.
  change (Z.min (Z.max (0 - 53) (-1074)) 0) with (-53).
  change (0 - -53) with 53. cbv iota.
  rewrite Z.shiftl_mul_pow2, Z.mul_comm by lia.
  assert (Heucl : Z.div_eucl (2 ^ 53 * Zpos pw) (Zpos pw) = (2 ^ 53, 0)).
  { pose proof (Z_div_mod (2 ^ 53 * Zpos pw) (Zpos pw) ltac:(lia)) as Hdm.
    destruct (Z.div_eucl (2 ^ 53 * Zpos pw) (Zpos pw)) as [q r].
    destruct Hdm as [Hdm Hr]. set (c := 2 ^ 53) in *.
    assert (q = c) by (destruct (Z.lt_trichotomy q c) as [|[|]]; nia).
    f_equal; nia. }
  rewrite Heucl.
  replace (new_location (Zpos pw) 0) with loc_Exact
    by (unfold new_location, new_location_even, new_location_odd;
        destruct (Z.even (Zpos pw)); reflexivity).
  destruct (binary_round_aux_exact (2 ^ 53) (-53) 1 0) as (m & e & Hres & Hval);
    try (apply Z.leb_le; reflexivity); try lia.
  { reflexivity. }
  rewrite Hres. exists m, e. split; [reflexivity | exact Hval].
Qed.

Lemma float_mul_int_100_exact m e :
  (dyadic (Zpos m) e == dyadic 1 0)%Q ->
  exists m' e', float_mul_int (S754_finite false m e) 100
                = Return (S754_finite false m' e')
                /\ (dyadic (Zpos m') e' == dyadic 100 0)%Q.
Proof.
  intros Hq. unfold float_mul_int. rewrite float_of_int_100. cbn [obind].
  cbn [SFmul hundred xorb].
  assert (He : e <= 0) by (apply (below_exponent m); rewrite Hq; apply Qle_refl).
  destruct (binary_round_aux_exact (Zpos (m * 7036874417766400)) (e + -46) 100 0)
    as (m' & e' & Hres & Hval);
    try (apply Z.leb_le; reflexivity); try lia.
  { change (emax - prec) with 971. lia. }
  { rewrite Pos2Z.inj_mul.
    change (Zpos 7036874417766400) with (100 * 2 ^ 46).
    rewrite Z.mul_assoc, dyadic_shift by lia.
    replace (e + -46 + 46) with e by lia.
    unfold dyadic in *. rewrite inject_Z_mult.
    rewrite (Qmult_comm (inject_Z (Zpos m))), <- Qmult_assoc, Hq.
    reflexivity. }
  rewrite Hres. exists m', e'. split; [reflexivity | exact Hval].
Qed.

Lemma tenths_of_100 m e :
  (dyadic (Zpos m) e == dyadic 100 0)%Q -> tenths m e = 1000.
Proof.
  intros Heq. unfold tenths. destruct e as [|pe|pe].
  - apply dyadic_eq_iff in Heq. lia.
  - rewrite <- (Z.add_0_l (Zpos pe)), <- dyadic_shift in Heq by lia.
    apply dyadic_eq_iff in Heq. lia.
  - assert (H2 : 0 < 2 ^ Zpos pe) by (apply Z.pow_pos_nonneg; lia).
    assert (Hm : Zpos m = 100 * 2 ^ Zpos pe).
    { apply (dyadic_eq_iff _ _ (Zneg pe)). rewrite dyadic_shift by lia.
      replace (Zneg pe + Zpos pe) with 0 by lia. exact Heq. }
    unfold div_half_even. rewrite Hm.
    replace (100 * 2 ^ Zpos pe * 10) with (1000 * 2 ^ Zpos pe) by lia.
    rewrite Z.mod_mul, Z.div_mul by lia.
    replace (2 * 0 ?= 2 ^ Zpos pe) with Lt by (symmetry; apply Z.compare_lt_iff; lia).
    reflexivity.
Qed.

Lemma round1_of_100 m e :
  (dyadic (Zpos m) e == dyadic 100 0)%Q ->
  round1 (S754_finite false m e) = Return hundred.
Proof.
  intros Heq. unfold round1. rewrite (tenths_of_100 m e Heq). reflexivity.
Qed.

Lemma percent_of_all w : 0 < w -> Spec.percent_of w w = Return hundred.
Proof.
  intros Hw. unfold Spec.percent_of.
  destruct (int_true_divide_self w Hw) as (m & e & -> & Hq). cbn [obind].
  destruct (float_mul_int_100_exact m e Hq) as (m' & e' & -> & Hp). cbn [obind].
  apply round1_of_100. exact Hp.
Qed.

Lemma percent_of_none w : 0 < w -> Spec.percent_of 0 w = Return (S754_zero false).
Proof.
  intros Hw. unfold Spec.percent_of, int_true_divide.
  replace (w =? 0) with false by (symmetry; apply Z.eqb_neq; lia).
  destruct w as [|pw|pw]; try lia. reflexivity.
Qed.

(** X10. The two extremes of [calculate_savings]: when the search used
    at least as many tokens as the full files hold ([0 < without <= used])
    nothing is saved and [percent_saved] is [0.0]; when it used none
    ([used = 0 < without]) everything is saved and [percent_saved] is
    exactly [100.0]. *)
Theorem calculate_savings_extremes (used without : Z) :
  0 < without ->
  (without <= used ->
     calculate_savings used without
       = Return (mk_stats used without 0 (S754_zero false)))
  /\ (used = 0 ->
      calculate_savings used without = Return (mk_stats 0 without without hundred)).
Proof.
  intros Hw. unfold calculate_savings.
  replace (0 <? without) with true by (symmetry; apply Z.ltb_lt; lia).
  split.
  - intros Hle. replace (Z.max 0 (without - used)) with 0 by lia.
    pose proof (percent_of_none without Hw) as Hpct.
    unfold Spec.percent_of in Hpct. rewrite Hpct. reflexivity.
  - intros ->. replace (Z.max 0 (without - 0)) with without by lia.
    pose proof (percent_of_all without Hw) as Hpct.
    unfold Spec.percent_of in Hpct. rewrite Hpct. reflexivity.
Qed.

End ExactFacts.

Lemma calculate_savings_extremes_witness :
  TokenCounter.calculate_savings 500 300
    = Py.Return (TokenCounter.mk_stats 500 300 0 (S754_zero false))
  /\ TokenCounter.calculate_savings 0 1500
      = Py.Return (TokenCounter.mk_stats 0 1500 1500 Dyadic.hundred).
Proof.
  split.
  - apply (proj1 (calculate_savings_extremes 500 300 ltac:(lia))). lia.
  - apply (proj2 (calculate_savings_extremes 0 1500 ltac:(lia))). reflexivity.
Defined.

Lemma search_code_output_witness :
  exists rs w1,
    Searcher.search_code "palindrome" Sim.chroma 5 Sim.world_ok = (Py.Return rs, w1)
    /\ rs <> [] /\ Searcher.stdout w1 = Searcher.stdout Sim.world_ok.
Proof.
  destruct (search_code_output "palindrome" Sim.chroma 5 Sim.world_ok)
    as (o & w1 & Hrun & Hout).
  assert (Ho : o = Py.Return Sim.sample_results).
  { vm_compute in Hrun. injection Hrun as <- _. reflexivity. }
  subst o. destruct Hout as [_ Hquiet].
  exists Sim.sample_results, w1. split; [exact Hrun|].
  assert (Hne : Sim.sample_results <> []) by discriminate.
  split; [exact Hne | exact (Hquiet Hne)].
Defined.

(** Under a tokenizer, a readable file that quotes a special token makes
    [count_tokens] raise inside the [try]; the [ValueError] is not
    listed by the except clause and escapes. *)
Lemma estimate_file_tokens_escapes_witness :
  let fs := Searcher.open_read (Searcher.ext SimVariants.world_special_file) in
  TokenCounter.estimate_file_tokens SimVariants.tiktoken fs "tok.py"
  = Py.Raise SimVariants.disallowed.
Proof.
  cbv zeta.
  apply (proj1 (estimate_file_tokens_escapes SimVariants.tiktoken _ _)).
  split; [|split; reflexivity].
  right. exists SimVariants.tok_py. split; reflexivity.
Defined.

(** ** Display: thousands separators and the percentage *)

Section DisplayFacts.
Import Py TokenCounter Dyadic Display.

Lemma remove_commas_filter l :
  remove_commas (string_of_list_ascii l)
  = string_of_list_ascii (List.filter not_comma l).
Proof.
  induction l as [|c l IH]; [reflexivity|].
  cbn [string_of_list_ascii remove_commas List.filter]. unfold not_comma at 1.
  destruct (Ascii.eqb c comma); cbn [negb]; [exact IH|].
  cbn [string_of_list_ascii]. rewrite IH. reflexivity.
Qed.

Lemma filter_rev_comm {A} (f : A -> bool) l :
  List.filter f (rev l) = rev (List.filter f l).
Proof.
  induction l as [|x l IH]; [reflexivity|].
  cbn [rev List.filter]. rewrite List.filter_app, IH. cbn [List.filter].
  destruct (f x); cbn [rev]; [reflexivity | apply app_nil_r].
Qed.

(** [group3] follows the length of its argument in steps of three. *)
Lemma group3_ind (P : list ascii -> Prop) :
  (forall l, (length l <= 3)%nat -> P l) ->
  (forall d1 d2 d3 d4 rest, P (d4 :: rest) -> P (d1 :: d2 :: d3 :: d4 :: rest)) ->
  forall l, P l.
Proof.
  intros Hshort Hstep l.
  assert (Hall : forall n l, (length l <= n)%nat -> P l).
  { clear l. induction n as [|n IH]; intros l Hlen.
    - apply Hshort. lia.
    - destruct l as [|d1 [|d2 [|d3 [|d4 rest]]]];
        try (apply Hshort; cbn; lia).
      apply Hstep. apply IH. cbn in *. lia. }
  apply (Hall (length l)). lia.
Qed.

Lemma group3_short l : (length l <= 3)%nat -> group3 l = l.
Proof.
  destruct l as [|d1 [|d2 [|d3 [|d4 rest]]]]; cbn; try reflexivity; lia.
Qed.

Lemma group3_step d1 d2 d3 d4 rest :
  group3 (d1 :: d2 :: d3 :: d4 :: rest)
  = d1 :: d2 :: d3 :: comma :: group3 (d4 :: rest).
Proof. reflexivity. Qed.

Lemma group3_filter l :
  List.filter not_comma (group3 l) = List.filter not_comma l.
Proof.
  induction l as [l Hlen | d1 d2 d3 d4 rest IH] using group3_ind.
  - rewrite group3_short by assumption. reflexivity.
  - rewrite group3_step. cbn [List.filter]. rewrite IH.
    change (not_comma comma) with false. reflexivity.
Qed.

Lemma digits_not_comma d :
  Forall (fun c => not_comma c = true)
    (list_ascii_of_string (NilEmpty.string_of_uint d)).
Proof.
  induction d; cbn [NilEmpty.string_of_uint list_ascii_of_string];
    constructor; (reflexivity || assumption).
Qed.

Lemma digits_not_comma0 d :
  Forall (fun c => not_comma c = true)
    (list_ascii_of_string (NilZero.string_of_uint d)).
Proof.
  destruct d; try apply digits_not_comma. repeat constructor.
Qed.

Lemma filter_all {A} (f : A -> bool) l :
  Forall (fun x => f x = true) l -> List.filter f l = l.
Proof.
  induction 1 as [|x l Hx _ IH]; [reflexivity|].
  cbn [List.filter]. rewrite Hx, IH. reflexivity.
Qed.

Lemma remove_commas_with_commas d :
  remove_commas (with_commas (NilZero.string_of_uint d))
  = NilZero.string_of_uint d.
Proof.
  unfold with_commas.
  rewrite remove_commas_filter, filter_rev_comm, group3_filter,
    filter_rev_comm, rev_involutive.
  rewrite filter_all by apply digits_not_comma0.
  apply string_of_list_ascii_of_string.
Qed.

Lemma to_int_proper n : Z.to_int n <> Decimal.Pos Decimal.Nil
                        /\ Z.to_int n <> Decimal.Neg Decimal.Nil.
Proof.
  destruct n as [|p|p]; cbn; split; try discriminate;
    intros [= Hnil]; exact (Unsigned.to_uint_nonnil p Hnil).
Qed.

(** X11. Grouping loses nothing: taking the commas out of
    [format(n, ',')] gives [str(n)] back, and reading that as an int
    gives [n]. *)
Theorem format_commas_round_trip (n : Z) :
  remove_commas (format_commas n) = str_int n
  /\ option_map Z.of_int (NilZero.int_of_string (remove_commas (format_commas n)))
     = Some n.
Proof.
  assert (Hstr : remove_commas (format_commas n) = str_int n).
  { unfold format_commas, str_int.
    destruct (Z.to_int n) as [d|d]; cbn [NilZero.string_of_int remove_commas].
    - apply remove_commas_with_commas.
    - change (Ascii.eqb "-" comma) with false. cbv iota.
      rewrite remove_commas_with_commas. reflexivity. }
  split; [exact Hstr|].
  rewrite Hstr. unfold str_int.
  destruct (to_int_proper n) as [Hpos Hneg].
  rewrite NilZero.isi by assumption. cbn [option_map].
  rewrite DecimalZ.of_to. reflexivity.
Qed.


Lemma group3_length l :
  length (group3 l) = (length l + (length l - 1) / 3)%nat.
Proof.
  induction l as [l Hlen | d1 d2 d3 d4 rest IH] using group3_ind.
  - rewrite group3_short by assumption.
    destruct l as [|d1 [|d2 [|d3 [|d4 rest]]]]; cbn in *; try reflexivity; lia.
  - rewrite group3_step. cbn [length]. rewrite IH. cbn [length].
    replace (S (S (S (S (length rest)))) - 1)%nat
      with (S (length rest) - 1 + 1 * 3)%nat by lia.
    rewrite Nat.div_add by lia. lia.
Qed.

Lemma group3_positions l i c :
  Forall (fun x => not_comma x = true) l ->
  nth_error (group3 l) i = Some c ->
  (c = comma <-> (i mod 4 = 3)%nat).
Proof.
  revert i. induction l as [l Hlen | d1 d2 d3 d4 rest IH] using group3_ind;
    intros i Hall Hnth.
  - rewrite group3_short in Hnth by assumption.
    assert (Hi : (i < 3)%nat).
    { assert (Hsome : nth_error l i <> None) by congruence.
      apply nth_error_Some in Hsome. lia. }
    assert (Hc : not_comma c = true).
    { rewrite List.Forall_forall in Hall. apply Hall.
      eapply nth_error_In. exact Hnth. }
    split.
    + intros ->. discriminate.
    + destruct i as [|[|[|i]]]; cbn; (discriminate || lia).
  - rewrite group3_step in Hnth.
    inversion Hall as [|? ? H1 Hall1]; subst.
    inversion Hall1 as [|? ? H2 Hall2]; subst.
    inversion Hall2 as [|? ? H3 Hall3]; subst.
    destruct i as [|[|[|[|i]]]]; cbn [nth_error] in Hnth.
    + injection Hnth as <-. split; [intros ->; discriminate | discriminate].
    + injection Hnth as <-. split; [intros ->; discriminate | discriminate].
    + injection Hnth as <-. split; [intros ->; discriminate | discriminate].
    + injection Hnth as <-. split; reflexivity.
    + rewrite (IH i Hall3 Hnth).
      replace (S (S (S (S i)))) with (i + 1 * 4)%nat by lia.
      rewrite Nat.Div0.mod_add. reflexivity.
Qed.

(** X12. Where the commas stand: in [format(n, ',')] for [n >= 0],
    counted from the right, every fourth character is a comma and no
    other character is one; with [d] digits the text is
    [d + (d - 1) / 3] characters long. *)
Theorem format_commas_positions (n : Z) :
  0 <= n ->
  let out := rev (list_ascii_of_string (format_commas n)) in
  let d := String.length (str_int n) in
  length out = (d + (d - 1) / 3)%nat
  /\ forall i c, nth_error out i = Some c ->
                 (c = comma <-> (i mod 4 = 3)%nat).
Proof.
  intros Hn out d. subst out d. unfold format_commas, str_int.
  destruct (Z.to_int n) as [u|u] eqn:Hint.
  2:{ destruct n; cbn in Hint; (discriminate || lia). }
  cbn [NilZero.string_of_int]. unfold with_commas.
  rewrite list_ascii_of_string_of_list_ascii, rev_involutive.
  split.
  - rewrite group3_length, length_rev.
    assert (Hlen : forall s, length (list_ascii_of_string s) = String.length s).
    { intros s. induction s as [|a s IH]; cbn; [reflexivity | now rewrite IH]. }
    rewrite Hlen. reflexivity.
  - intros i c. apply group3_positions.
    apply List.Forall_rev. apply digits_not_comma0.
Qed.

Lemma repr_table : forallb repr_one_decimal (seq 0 1001) = true.
Proof. vm_compute. reflexivity. Qed.

Lemma float_repr_tenth n :
  0 <= n <= 1000 -> float_repr (tenth n) = one_decimal n.
Proof.
  intros Hn. pose proof repr_table as Htab.
  rewrite forallb_forall in Htab. specialize (Htab (Z.to_nat n)).
  unfold repr_one_decimal in Htab. rewrite Z2Nat.id in Htab by lia.
  apply String.eqb_eq. apply Htab. apply in_seq. lia.
Qed.

(** X13. For [used >= 0] and [without >= 0] the text built from
    [calculate_savings(used, without)] shows the three counts with
    thousands separators and the percentage with exactly one fractional
    digit: it ends in [(i.d%)] for a number [n = 10 * i + d] of tenths
    between [0] and [1000]. *)
Theorem format_token_stats_of_savings (used without : Z) :
  0 <= used -> 0 <= without ->
  exists st n,
    calculate_savings used without = Return st
    /\ 0 <= n <= 1000
    /\ format_token_stats st =
         chart ++ " Token Stats:" ++ newline
         ++ "   Used: " ++ format_commas used ++ " tokens" ++ newline
         ++ "   Without search: " ++ format_commas without ++ " tokens" ++ newline
         ++ "   Saved: " ++ format_commas (Z.max 0 (without - used))
         ++ " tokens (" ++ one_decimal n ++ "%)".
Proof.
  intros Hu Hw. destruct (Z.eq_dec without 0) as [Hz|Hnz].
  - eexists. exists 0. split; [apply calculate_savings_nonpositive; lia|].
    split; [lia | reflexivity].
  - destruct (calculate_savings_positive used without) as (n & Hn & Hret & _);
      [lia | lia |].
    eexists. exists n. split; [exact Hret|]. split; [exact Hn|].
    unfold format_token_stats.
    cbn [tokens_used tokens_without_search tokens_saved percent_saved].
    rewrite (float_repr_tenth n Hn). reflexivity.
Qed.

End DisplayFacts.

Lemma format_commas_positions_witness :
  Display.format_commas 1234567 = "1,234,567"
  /\ length (rev (list_ascii_of_string (Display.format_commas 1234567))) = 9%nat.
Proof.
  split; [reflexivity|].
  exact (proj1 (format_commas_positions 1234567 ltac:(lia))).
Defined.

Lemma format_token_stats_of_savings_witness :
  exists st,
    TokenCounter.calculate_savings 150 2000 = Py.Return st
    /\ Display.format_token_stats st =
         Display.chart ++ " Token Stats:" ++ Py.newline
         ++ "   Used: 150 tokens" ++ Py.newline
         ++ "   Without search: 2,000 tokens" ++ Py.newline
         ++ "   Saved: 1,850 tokens (92.5%)".
Proof.
  destruct (format_token_stats_of_savings 150 2000) as (st & n & Hret & _ & _);
    [lia | lia |].
  exists st. split; [exact Hret|].
  vm_compute in Hret. injection Hret as <-. vm_compute. reflexivity.
Defined.

(** ** The demo of the searcher *)

Section DemoFacts.
Import Py TokenCounter Searcher Display Demo.
Context {S V : Type} `{Collaborators S V}.

Lemma is_indexed_returns persist_path (w : World S) :
  exists b w1, is_indexed persist_path w = (Return b, w1).
Proof.
  rewrite is_indexed_cases.
  destruct (os_path_exists persist_path (ext w)); [|eauto].
  destruct (init_db persist_path (ext w)) as [[u|e] s1]; [|eauto].
  destruct (get_stats s1) as [[stats|e] s2]; [|eauto].
  destruct (stats !! "total_functions"); eauto.
Qed.

Lemma printed_printed (w : World S) l1 l2 :
  printed (printed w l1) l2 = printed w (l1 ++ l2)%list.
Proof. unfold printed. cbn. rewrite <- app_assoc. reflexivity. Qed.

Lemma bind_return {A B} (c : M S A) (k : A -> M S B) w a w' :
  c w = (Return a, w') -> bind c k w = k a w'.
Proof. intros Hc. unfold bind. rewrite Hc. reflexivity. Qed.

Lemma bind_raise {A B} (c : M S A) (k : A -> M S B) w e w' :
  c w = (Raise e, w') -> bind c k w = (Raise e, w').
Proof. intros Hc. unfold bind. rewrite Hc. reflexivity. Qed.

Lemma print_run line (w : World S) :
  stdout_write (ext w) line = Return tt ->
  print line w = (Return tt, printed w [line]).
Proof. intros Hopen. unfold print, printed. rewrite Hopen. reflexivity. Qed.

Lemma print_raises line (w : World S) e :
  stdout_write (ext w) line = Raise e -> print line w = (Raise e, w).
Proof. intros Hclosed. unfold print. rewrite Hclosed. reflexivity. Qed.

Lemma show_result_run i r (w : World S) :
  (forall s line, stdout_write s line = Return tt) ->
  if complete r
  then exists lines, length lines = 8%nat
         /\ show_result i r w = (Return tt, printed w lines)
  else exists e lines, exn_cls e = KeyError
         /\ show_result i r w = (Raise e, printed w lines).
Proof.
  intros Hopen.
  unfold show_result, complete, bind, print, lift, subscript, printed.
  destruct r as [fn fp ls le sm cd si]. cbn. rewrite Hopen. cbn.
  destruct fn as [fn|]; cbn; [|do 2 eexists; split; [|reflexivity]; reflexivity].
  rewrite Hopen. cbn.
  destruct fp as [fp|]; cbn;
    [|do 2 eexists; split; [|rewrite <- !app_assoc; reflexivity]; reflexivity].
  rewrite Hopen. cbn.
  destruct ls as [ls|]; cbn;
    [|do 2 eexists; split; [|rewrite <- !app_assoc; reflexivity]; reflexivity].
  destruct le as [le|]; cbn;
    [|do 2 eexists; split; [|rewrite <- !app_assoc; reflexivity]; reflexivity].
  rewrite Hopen. cbn.
  destruct sm as [sm|]; cbn;
    [|do 2 eexists; split; [|rewrite <- !app_assoc; reflexivity]; reflexivity].
  rewrite Hopen. cbn.
  destruct si as [si|]; cbn;
    [|do 2 eexists; split; [|rewrite <- !app_assoc; reflexivity]; reflexivity].
  rewrite Hopen. cbn.
  destruct cd as [cd|]; cbn;
    [|do 2 eexists; split; [|rewrite <- !app_assoc; reflexivity]; reflexivity].
  rewrite Hopen. cbn. rewrite Hopen. cbn.
  eexists. split; [|rewrite <- !app_assoc; reflexivity]. reflexivity.
Qed.

Lemma show_results_run i rs (w : World S) :
  (forall s line, stdout_write s line = Return tt) ->
  if forallb complete rs
  then exists lines, length lines = (8 * length rs)%nat
         /\ show_results i rs w = (Return tt, printed w lines)
  else exists e lines, exn_cls e = KeyError
         /\ show_results i rs w = (Raise e, printed w lines).
Proof.
  intros Hopen.
  revert i w. induction rs as [|r rs IH]; intros i w; cbn [forallb show_results].
  - exists []. split; [reflexivity|]. unfold ret, printed.
    rewrite app_nil_r. destruct w; reflexivity.
  - unfold bind. pose proof (show_result_run i r w Hopen) as Hr.
    destruct (complete r); cbn [andb].
    + destruct Hr as (l1 & Hlen1 & ->).
      specialize (IH (i + 1) (printed w l1)).
      destruct (forallb complete rs).
      * destruct IH as (l2 & Hlen2 & ->). exists (l1 ++ l2)%list.
        rewrite printed_printed, length_app. cbn [length].
        split; [lia | reflexivity].
      * destruct IH as (e & l2 & He & ->). exists e, (l1 ++ l2)%list.
        rewrite printed_printed. split; [exact He | reflexivity].
    + destruct Hr as (e & l1 & He & ->). exists e, l1.
      split; [exact He | reflexivity].
Qed.

(** X14. The demo in full, in a process whose standard output accepts
    every line: when the probe says no it prints [Not indexed yet] and
    searches nothing; when the search yields nothing it prints
    [No results found.]; otherwise it prints one heading and eight lines
    per result and ends normally if every result has its seven keys, and
    stops with a [KeyError], the outside world being as the search left
    it, as soon as one lacks a key. When the standard output refuses the
    first line the demo writes, it ends there with the exception of
    that write. *)
Theorem main_outcomes (w : World S) :
  exists b w1,
    is_indexed default_path w = (Return b, w1)
    /\ ((forall s line, stdout_write s line = Return tt) ->
        if b then
          exists rs w2,
            search_code "palindrome" default_path 5
              (printed w1 ["Database is indexed. Searching for 'palindrome'..."
                           +:+ newline])
              = (Return rs, w2)
            /\ match rs with
               | [] => main w = (Return tt, printed w2 ["No results found."])
               | _ :: _ =>
                   if forallb complete rs
                   then exists lines,
                          length lines = (1 + 8 * length rs)%nat
                          /\ main w = (Return tt, printed w2 lines)
                   else exists e lines,
                          exn_cls e = KeyError
                          /\ main w = (Raise e, printed w2 lines)
               end
        else main w = (Return tt, printed w1 ["Not indexed yet"]))
    /\ (forall e,
          stdout_write (ext w1)
            (if b
             then "Database is indexed. Searching for 'palindrome'..." +:+ newline
             else "Not indexed yet") = Raise e ->
          main w = (Raise e, w1)).
Proof.
  destruct (is_indexed_returns default_path w) as (b & w1 & Hprobe).
  exists b, w1. split; [exact Hprobe|].
  unfold main. rewrite (bind_return _ _ _ _ _ Hprobe). split.
  2:{ intros e Hclosed. destruct b.
      - apply bind_raise, print_raises. exact Hclosed.
      - apply print_raises. exact Hclosed. }
  intros Hopen.
  destruct b; [|apply print_run, Hopen].
  rewrite (bind_return _ _ _ _ _ (print_run _ _ (Hopen _ _))).
  set (w1' := printed w1 _).
  destruct (search_code_returns "palindrome" default_path 5 w1' Hopen)
    as (rs & w2 & Hs).
  exists rs, w2. split; [exact Hs|].
  rewrite (bind_return _ _ _ _ _ Hs).
  destruct rs as [|r rs']; [apply print_run, Hopen|].
  set (rs := r :: rs') in *.
  rewrite (bind_return _ _ _ _ _ (print_run _ _ (Hopen _ _))).
  set (heading := "Found " +:+ _).
  pose proof (show_results_run 1 rs (printed w2 [heading]) Hopen) as Hloop.
  destruct (forallb complete rs).
  - destruct Hloop as (lines & Hlen & ->). exists (heading :: lines).
    rewrite printed_printed. split; [cbn [length]; lia | reflexivity].
  - destruct Hloop as (e & lines & He & ->). exists e, (heading :: lines).
    rewrite printed_printed. split; [exact He | reflexivity].
Qed.

End DemoFacts.

Lemma main_outcomes_witness :
  exists lines w2,
    length lines = 9%nat
    /\ Demo.main Demo.world_full = (Py.Return tt, Demo.printed w2 lines).
Proof.
  destruct (main_outcomes Demo.world_full) as (b & w1 & Hprobe & Hrest & _).
  vm_compute in Hprobe. injection Hprobe as <- <-.
  destruct Hrest as (rs & w2 & Hsearch & Hmain); [reflexivity|].
  vm_compute in Hsearch. injection Hsearch as <- <-.
  destruct Hmain as (lines & Hlen & Hmain).
  exists lines. eexists. split; [exact Hlen | exact Hmain].
Defined.

(** ** Statistics of a search, displayed *)

Section DisplayOfSearch.
Import Py TokenCounter Searcher Dyadic Display.
Context {S V : Type} `{Collaborators S V}.
Variable backend : Backend.

(** X15. Whatever statistics [search_code_with_stats] returns, their
    display by [format_token_stats] shows the percentage with exactly one
    fractional digit, as [i.d] for a number [n = 10 * i + d] of tenths
    between [0] and [1000]. *)
Theorem format_token_stats_of_search (query persist_path : string)
    (top_k : Z) (w w' : World S) (rs : list SearchResult) (st : TokenStats) :
  search_code_with_stats backend query persist_path top_k w
    = (Return (rs, st), w') ->
  exists n,
    0 <= n <= 1000
    /\ format_token_stats st =
         chart ++ " Token Stats:" ++ newline
         ++ "   Used: " ++ format_commas (tokens_used st) ++ " tokens" ++ newline
         ++ "   Without search: " ++ format_commas (tokens_without_search st)
         ++ " tokens" ++ newline
         ++ "   Saved: " ++ format_commas (tokens_saved st)
         ++ " tokens (" ++ one_decimal n ++ "%)".
Proof.
  intros Hrun.
  assert (Hpct : exists n, 0 <= n <= 1000 /\ percent_saved st = tenth n).
  { destruct (search_code_with_stats_inv _ _ _ _ _ _ _ _ Hrun)
      as [_ [[_ ->] | (_ & used & counts & Hused & Hmap & Hcalc)]].
    - exists 0. split; [lia | reflexivity].
    - pose proof (counts_nonneg _ _ _ _ Hmap) as Hsum.
      destruct (calculate_savings_positive used
                  (if Py.sum counts =? 0
                   then 500 * Z.max 3 (Z.of_nat (length (file_paths_of rs)))
                   else Py.sum counts)) as (n & Hn & Hret & _).
      { eapply count_tokens_nonneg; eassumption. }
      { destruct (Z.eqb_spec (Py.sum counts) 0); lia. }
      rewrite Hret in Hcalc. injection Hcalc as <-. exists n. auto. }
  destruct Hpct as (n & Hn & Hpct). exists n. split; [exact Hn|].
  unfold format_token_stats. rewrite Hpct, (float_repr_tenth n Hn). reflexivity.
Qed.

End DisplayOfSearch.

Lemma format_token_stats_of_search_witness :
  exists st w',
    Searcher.search_code_with_stats TokenCounter.CharEstimator
      "palindrome" Sim.chroma 5 Sim.world_no_files
      = (Py.Return (Sim.sample_results, st), w')
    /\ Display.format_token_stats st =
         Display.chart ++ " Token Stats:" ++ Py.newline
         ++ "   Used: 17 tokens" ++ Py.newline
         ++ "   Without search: 1,500 tokens" ++ Py.newline
         ++ "   Saved: 1,483 tokens (98.9%)".
Proof.
  pose (st := TokenCounter.mk_stats 17 1500 1483 (Dyadic.tenth 989)).
  pose (w' := Searcher.mk_world
                (Sim.mk_state {[ Sim.chroma := Sim.sample_results ]}
                   ∅ true (Some Sim.chroma) 1) []).
  assert (Hrun : Searcher.search_code_with_stats TokenCounter.CharEstimator
                   "palindrome" Sim.chroma 5 Sim.world_no_files
                 = (Py.Return (Sim.sample_results, st), w'))
    by (vm_compute; reflexivity).
  destruct (format_token_stats_of_search _ _ _ _ _ _ _ _ Hrun) as (n & _ & _).
  exists st, w'. split; [exact Hrun|]. vm_compute. reflexivity.
Defined.
